(** * Zakat manager: valuation, obligation, payment ledger and year archive

    A shallow embedding of the computation and archival logic of
    [src/zakat_app.py] (class [ZakatManager]).

    Numbers.  The program stores amounts, rates and prices as JSON numbers
    (Python [int]/[float]).  They are modelled here as exact rationals [Q];
    equalities between computed figures are stated with [Qeq] ([==]).

    Persistence.  [json.dump] followed by [json.load] is taken to give back
    the same document, so a file on disk is modelled by the snapshot it holds.
    The data directory and the history directory are two finite maps from the
    year in the file name [zakat_data_<year>.json] to that snapshot. *)

From Stdlib Require Import QArith Qfield Lqa ZArith List String.
From stdpp Require Import gmap strings list fin_maps.

Local Open Scope Q_scope.

(** ** Data model: the shape of [get_default_data] and of the dialogs' records *)

Record Member := {
  member_id : Q; member_name : string; member_mobile : string;
  member_nic : string; member_address : string; member_photo : string
}.

Record Cash := {
  cash_id : Q; cash_holder : string; cash_location : string;
  cash_currency : string; cash_amount : Q
}.

Record Bank := {
  bank_id : Q; bank_name : string; bank_account : string; bank_type : string;
  bank_currency : string; bank_balance : Q
}.

(** [prop.get('for_trade')] is [None] when the key is absent. *)
Record Property := {
  prop_id : Q; prop_name : string; prop_type : string; prop_location : string;
  prop_value : Q; prop_for_trade : option string
}.

Record Receivable := {
  rec_id : Q; rec_currency : string; rec_amount : Q
}.

Record Gold := {
  gold_id : Q; gold_owner : string; gold_description : string;
  gold_weight : Q; gold_purity : string
}.

Record Recipient := {
  recipient_id : Q; recipient_name : string; recipient_category : string;
  recipient_nic : string; recipient_mobile : string; recipient_address : string;
  recipient_photo : string; recipient_nic_photo : string
}.

Record Payment := {
  payment_id : Q; payment_recipient_id : Q; payment_amount : Q;
  payment_method : string; payment_date : string; payment_notes : string
}.

Record Settings := {
  zakat_rate : Q;
  nisab : Q;
  gold_price_24k : Q;
  gold_price_22k : Q;
  gold_price_18k : Q;
  currency_rates : gmap string Q
}.

Record Snapshot := {
  members : list Member;
  cash : list Cash;
  banks : list Bank;
  properties : list Property;
  receivables : list Receivable;
  gold : list Gold;
  recipients : list Recipient;
  payments : list Payment;
  settings : Settings
}.

Definition default_currency_rates : gmap string Q :=
  <["USD"%string := 280]> (<["EUR"%string := 305]> (<["CNY"%string := 39]>
  (<["HKD"%string := 36]> (<["SGD"%string := 208]> (<["PKR"%string := 1]>
  (<["AED"%string := 76]> (<["SAR"%string := 75]> (<["GBP"%string := 355]>
  (<["JPY"%string := 19 # 10]> ∅))))))))).

Definition default_settings : Settings := {|
  zakat_rate := 25 # 10;
  nisab := 150000;
  gold_price_24k := 250000;
  gold_price_22k := 229000;
  gold_price_18k := 187500;
  currency_rates := default_currency_rates
|}.

Definition get_default_data : Snapshot := {|
  members := []; cash := []; banks := []; properties := [];
  receivables := []; gold := []; recipients := []; payments := [];
  settings := default_settings
|}.

(** [self.currencies], fixed in [__init__]. *)
Definition currencies : list string :=
  ["USD"; "EUR"; "CNY"; "HKD"; "SGD"; "PKR"; "AED"; "SAR"; "GBP"; "JPY"]%string.

(** ** Valuation *)

(** [rates.get(code, 1)] *)
Definition rate_of (rates : gmap string Q) (code : string) : Q :=
  default 1 (rates !! code).

(** [amount * rate], the body of the cash, bank and receivable loops. *)
Definition convert_to_base (amount : Q) (code : string) (rates : gmap string Q) : Q :=
  amount * rate_of rates code.

(** The [if purity == '24' ... elif purity == '22' ... else] chain that each
    gold loop of the program repeats. *)
Definition gold_price (st : Settings) (purity : string) : Q :=
  if String.eqb purity "24" then gold_price_24k st
  else if String.eqb purity "22" then gold_price_22k st
  else gold_price_18k st.

(** [gold['weight'] * price] *)
Definition gold_value (st : Settings) (g : Gold) : Q :=
  gold_weight g * gold_price st (gold_purity g).

(** [prop.get('for_trade') == 'yes'] *)
Definition is_for_trade (p : Property) : bool :=
  match prop_for_trade p with
  | Some s => String.eqb s "yes"
  | None => false
  end.

(** ** [calculate_total_zakat]: one accumulator, five loops, then the rate *)

Definition add_cash (rates : gmap string Q) (total : Q) (c : Cash) : Q :=
  total + convert_to_base (cash_amount c) (cash_currency c) rates.

Definition add_bank (rates : gmap string Q) (total : Q) (b : Bank) : Q :=
  total + convert_to_base (bank_balance b) (bank_currency b) rates.

Definition add_receivable (rates : gmap string Q) (total : Q) (r : Receivable) : Q :=
  total + convert_to_base (rec_amount r) (rec_currency r) rates.

Definition add_gold (st : Settings) (total : Q) (g : Gold) : Q :=
  total + gold_value st g.

Definition add_property (total : Q) (p : Property) : Q :=
  if is_for_trade p then total + prop_value p else total.

Definition zakatable_total (d : Snapshot) : Q :=
  let st := settings d in
  let rates := currency_rates st in
  let total := 0 in
  let total := fold_left (add_cash rates) (cash d) total in
  let total := fold_left (add_bank rates) (banks d) total in
  let total := fold_left (add_receivable rates) (receivables d) total in
  let total := fold_left (add_gold st) (gold d) total in
  let total := fold_left add_property (properties d) total in
  total.

Definition calculate_total_zakat (d : Snapshot) : Q :=
  zakatable_total d * (zakat_rate (settings d) / 100).

(** [sum(p['amount'] for p in payments)] *)
Definition calculate_total_paid (d : Snapshot) : Q :=
  fold_left (fun acc p => acc + payment_amount p) (payments d) 0.

(** [available = calculate_total_zakat() - calculate_total_paid()], the
    expression that [add_payment_dialog], [refresh_dashboard] and
    [refresh_payments] each evaluate afresh. *)
Definition remaining_balance (d : Snapshot) : Q :=
  calculate_total_zakat d - calculate_total_paid d.

(** [sum(p['amount'] for p in payments if p['recipient_id'] == recipient['id'])] *)
Definition total_received (d : Snapshot) (r : Recipient) : Q :=
  fold_left (fun acc p => acc + payment_amount p)
    (List.filter (fun p => Qeq_bool (payment_recipient_id p) (recipient_id r)) (payments d)) 0.

(** ** Failures

    The program signals a failure either by an exception that nothing
    catches, or by a message box followed by [return]. *)
Inductive Failure :=
| KeyError (key : string)
| FileNotFoundError (year : Z)
| ShowWarning (message : string)
| ShowError (message : string).

Definition Result (A : Type) : Type := Failure + A.

#[global] Instance result_ret : MRet Result := fun _ x => inr x.
#[global] Instance result_bind : MBind Result := fun _ _ f m =>
  match m with
  | inl e => inl e
  | inr x => f x
  end.

(** A [for] loop whose body may raise. *)
Fixpoint for_each {A B : Type} (body : B -> A -> Result B) (l : list A) (acc : B) : Result B :=
  match l with
  | [] => inr acc
  | x :: l' => acc' ← body acc x; for_each body l' acc'
  end.

(** ** Dashboard summary ([refresh_dashboard]) *)

(** [currency_totals[c] = 0 for c in self.currencies] *)
Definition init_currency_totals : gmap string Q :=
  fold_left (fun m c => <[c := 0]> m) currencies ∅.

(** [currency_totals[code] += amount]: reading a missing key raises. *)
Definition add_to_currency (totals : gmap string Q) (code : string) (amount : Q)
  : Result (gmap string Q) :=
  match totals !! code with
  | Some t => inr (<[code := t + amount]> totals)
  | None => inl (KeyError code)
  end.

Definition currency_totals (d : Snapshot) : Result (gmap string Q) :=
  t ← for_each (fun t c => add_to_currency t (cash_currency c) (cash_amount c))
        (cash d) init_currency_totals;
  t ← for_each (fun t b => add_to_currency t (bank_currency b) (bank_balance b))
        (banks d) t;
  for_each (fun t r => add_to_currency t (rec_currency r) (rec_amount r))
        (receivables d) t.

Record CurrencyRow := {
  row_currency : string; row_amount : Q; row_rate : Q; row_pkr_value : Q; row_zakat : Q
}.

(** The rows inserted for the entries with [amount > 0]; the dictionary is
    walked in insertion order, which is the order of [currencies]. *)
Definition currency_rows (d : Snapshot) : Result (list CurrencyRow) :=
  t ← currency_totals d;
  mret (omap (fun curr =>
          match t !! curr with
          | Some amount =>
              if Qle_bool amount 0 then None
              else
                let rate := rate_of (currency_rates (settings d)) curr in
                let pkr_value := amount * rate in
                Some {| row_currency := curr; row_amount := amount; row_rate := rate;
                        row_pkr_value := pkr_value;
                        row_zakat := pkr_value * (zakat_rate (settings d) / 100) |}
          | None => None
          end) currencies).

Record GoldSummary := {
  total_weight : Q; total_gold_value : Q; gold_summary_zakat : Q
}.

(** The literal [0.025] of the gold and property figures. *)
Definition fixed_rate : Q := 25 # 1000.

Definition gold_summary (d : Snapshot) : GoldSummary :=
  let total_weight := fold_left (fun acc g => acc + gold_weight g) (gold d) 0 in
  let total_gold_value := fold_left (add_gold (settings d)) (gold d) 0 in
  {| total_weight := total_weight;
     total_gold_value := total_gold_value;
     gold_summary_zakat := total_gold_value * fixed_rate |}.

Record DashboardSummary := {
  total_zakat : Q; total_paid : Q; remaining : Q;
  currency_breakdown : list CurrencyRow; gold_line : GoldSummary
}.

Definition refresh_dashboard (d : Snapshot) : Result DashboardSummary :=
  let total_zakat := calculate_total_zakat d in
  let total_paid := calculate_total_paid d in
  let remaining := total_zakat - total_paid in
  rows ← currency_rows d;
  mret {| total_zakat := total_zakat; total_paid := total_paid; remaining := remaining;
          currency_breakdown := rows; gold_line := gold_summary d |}.

(** ** Asset tables ([refresh_gold], the property part of [refresh_assets]) *)

Record GoldRow := {
  grow_owner : string; grow_description : string; grow_weight : Q;
  grow_purity : string; grow_value : Q; grow_zakat : Q
}.

Definition gold_row (st : Settings) (g : Gold) : GoldRow :=
  let value := gold_value st g in
  let zakat := value * fixed_rate in
  {| grow_owner := gold_owner g; grow_description := gold_description g;
     grow_weight := gold_weight g; grow_purity := (gold_purity g ++ "K")%string;
     grow_value := value; grow_zakat := zakat |}.

Definition refresh_gold (d : Snapshot) : list GoldRow :=
  List.map (gold_row (settings d)) (gold d).

Record PropertyRow := {
  prow_name : string; prow_type : string; prow_location : string;
  prow_value : Q; prow_for_trade : string; prow_zakat : Q
}.

Definition property_row (p : Property) : PropertyRow :=
  let zakat := if is_for_trade p then prop_value p * fixed_rate else 0 in
  {| prow_name := prop_name p; prow_type := prop_type p; prow_location := prop_location p;
     prow_value := prop_value p;
     prow_for_trade := if is_for_trade p then "Yes"%string else "No"%string;
     prow_zakat := zakat |}.

Definition refresh_properties (d : Snapshot) : list PropertyRow :=
  List.map property_row (properties d).

(** ** History listing ([calculate_historical_zakat], [refresh_history]) *)

(** The archived documents modelled here carry every key, so the defaults
    of [data.get(...)] and [settings.get(...)] are never taken. *)
Definition calculate_historical_zakat (d : Snapshot) : Q :=
  let total := 0 in
  let st := settings d in
  let rates := currency_rates st in
  let total := fold_left (add_cash rates) (cash d) total in
  let total := fold_left (add_bank rates) (banks d) total in
  let zakat_rate := zakat_rate st in
  total * (zakat_rate / 100).

Record HistoryRow := {
  hist_year : Z; hist_total_zakat : Q; hist_total_paid : Q; hist_remaining : Q;
  hist_members : nat; hist_recipients : nat
}.

Definition history_row (year : Z) (d : Snapshot) : HistoryRow :=
  let total_zakat := calculate_historical_zakat d in
  let total_paid := fold_left (fun acc p => acc + payment_amount p) (payments d) 0 in
  {| hist_year := year; hist_total_zakat := total_zakat; hist_total_paid := total_paid;
     hist_remaining := total_zakat - total_paid;
     hist_members := length (members d); hist_recipients := length (recipients d) |}.

(** ** Program state: the active year, its in-memory document, and the two
    directories of persisted documents *)

Record State := {
  current_year : Z;
  data : Snapshot;
  data_dir : gmap Z Snapshot;
  history_dir : gmap Z Snapshot
}.

(** One row per file of the history directory. *)
Definition refresh_history (s : State) : list HistoryRow :=
  List.map (fun yd => history_row (fst yd) (snd yd)) (map_to_list (history_dir s)).

(** [load_data]: the document of the current year, or the default one. *)
Definition load_data (s : State) : Snapshot :=
  match data_dir s !! current_year s with
  | Some d => d
  | None => get_default_data
  end.

(** [save_data]: overwrite the document of the current year. *)
Definition save_data (s : State) : State :=
  {| current_year := current_year s; data := data s;
     data_dir := <[current_year s := data s]> (data_dir s);
     history_dir := history_dir s |}.

(** [shutil.copy(self.get_data_file(), hist_file)]: raises when the data
    file of the current year does not exist. *)
Definition archive_current (s : State) : Result State :=
  match data_dir s !! current_year s with
  | Some doc =>
      inr {| current_year := current_year s; data := data s;
             data_dir := data_dir s;
             history_dir := <[current_year s := doc]> (history_dir s) |}
  | None => inl (FileNotFoundError (current_year s))
  end.

(** [shutil.copy(source_file, self.get_data_file())] *)
Definition copy_from_history (year : Z) (s : State) : Result State :=
  match history_dir s !! year with
  | Some doc =>
      inr {| current_year := current_year s; data := data s;
             data_dir := <[current_year s := doc]> (data_dir s);
             history_dir := history_dir s |}
  | None => inl (FileNotFoundError year)
  end.

Definition set_data (d : Snapshot) (s : State) : State :=
  {| current_year := current_year s; data := d;
     data_dir := data_dir s; history_dir := history_dir s |}.

Definition set_current_year (y : Z) (s : State) : State :=
  {| current_year := y; data := data s;
     data_dir := data_dir s; history_dir := history_dir s |}.

Definition change_year (new_year : Z) (s : State) : Result State :=
  if decide (new_year ≠ current_year s) then
    let s := save_data s in
    s ← archive_current s;
    let s := set_current_year new_year s in
    mret (set_data (load_data s) s)
  else mret s.

(** [confirm] is the answer given to the [askyesno] box. *)
Definition restore_from_history (confirm : bool) (year : Z) (s : State) : Result State :=
  if confirm then
    s ← archive_current s;
    s ← copy_from_history year s;
    mret (set_data (load_data s) s)
  else mret s.

(** ** Recording a payment ([add_payment_dialog] and its [save] button) *)

Record PaymentForm := {
  form_recipient : string;   (* recipient_combo.get() *)
  form_amount : Q;           (* float(amount_entry.get() or 0) *)
  form_method : string;
  form_date : string;
  form_notes : string
}.

(** The guards that run before the dialog opens; the result is [available]. *)
Definition open_payment_dialog (s : State) : Result Q :=
  match recipients (data s) with
  | [] => inl (ShowWarning "Please add recipients first!")
  | _ :: _ =>
      let available := calculate_total_zakat (data s) - calculate_total_paid (data s) in
      if Qle_bool available 0 then inl (ShowWarning "No available Zakat funds!")
      else inr available
  end.

Definition append_payment (p : Payment) (d : Snapshot) : Snapshot :=
  {| members := members d; cash := cash d; banks := banks d;
     properties := properties d; receivables := receivables d; gold := gold d;
     recipients := recipients d; payments := payments d ++ [p];
     settings := settings d |}.

(** The [payment] dictionary; [now] is [datetime.now().timestamp()]. *)
Definition make_payment (now : Q) (recipient : Recipient) (f : PaymentForm) : Payment :=
  {| payment_id := now;
     payment_recipient_id := recipient_id recipient;
     payment_amount := form_amount f;
     payment_method := form_method f;
     payment_date := form_date f;
     payment_notes := form_notes f |}.

(** [next((r for r in recipients if r['name'] == recipient_combo.get()), None)] *)
Definition find_recipient (name : string) (d : Snapshot) : option Recipient :=
  List.find (fun r => String.eqb (recipient_name r) name) (recipients d).

(** The [save] closure of the dialog. *)
Definition save_payment (now : Q) (available : Q) (f : PaymentForm) (s : State)
  : Result State :=
  let amount := form_amount f in
  if negb (Qle_bool amount available) then
    inl (ShowError "Amount exceeds available funds!")
  else
    match find_recipient (form_recipient f) (data s) with
    | None => inl (ShowError "Please select a recipient!")
    | Some recipient =>
        let payment := make_payment now recipient f in
        inr (save_data (set_data (append_payment payment (data s)) s))
    end.

Definition add_payment_dialog (now : Q) (f : PaymentForm) (s : State) : Result State :=
  available ← open_payment_dialog s;
  save_payment now available f s.

(** Payments made one after another; the first failure stops the run. *)
Definition record_payments (reqs : list (Q * PaymentForm)) (s : State) : Result State :=
  for_each (fun s req => add_payment_dialog (fst req) (snd req) s) reqs s.

(** The state the program is in once a handler has returned: a failed
    handler has changed nothing. *)
Definition state_after (r : Result State) (s : State) : State :=
  match r with
  | inl _ => s
  | inr s' => s'
  end.

(** ** The obligation as the specification words it *)

Definition Qsum (l : list Q) : Q := fold_right Qplus 0 l.

(** The zakatable base values of a snapshot, class by class: converted cash,
    bank and receivable amounts, gold at weight times tier price, and the
    declared value of the properties whose trade flag is set. *)
Definition zakatable_base_values (d : Snapshot) : list Q :=
  let st := settings d in
  let rate code := match currency_rates st !! code with Some r => r | None => 1 end in
  List.map (fun c => cash_amount c * rate (cash_currency c)) (cash d)
  ++ List.map (fun b => bank_balance b * rate (bank_currency b)) (banks d)
  ++ List.map (fun r => rec_amount r * rate (rec_currency r)) (receivables d)
  ++ List.map (fun g => gold_weight g * gold_price st (gold_purity g)) (gold d)
  ++ List.map prop_value (List.filter is_for_trade (properties d)).

(** ** What one asset adds to the obligation

    The records below are appended the way the add dialogs do it; the
    contribution of an asset is the difference it makes to
    [calculate_total_zakat]. *)

Definition set_zakat_rate (r : Q) (d : Snapshot) : Snapshot :=
  {| members := members d; cash := cash d; banks := banks d;
     properties := properties d; receivables := receivables d; gold := gold d;
     recipients := recipients d; payments := payments d;
     settings := {| zakat_rate := r; nisab := nisab (settings d);
                    gold_price_24k := gold_price_24k (settings d);
                    gold_price_22k := gold_price_22k (settings d);
                    gold_price_18k := gold_price_18k (settings d);
                    currency_rates := currency_rates (settings d) |} |}.

Definition set_gold (gs : list Gold) (d : Snapshot) : Snapshot :=
  {| members := members d; cash := cash d; banks := banks d;
     properties := properties d; receivables := receivables d; gold := gs;
     recipients := recipients d; payments := payments d; settings := settings d |}.

Definition set_properties (ps : list Property) (d : Snapshot) : Snapshot :=
  {| members := members d; cash := cash d; banks := banks d;
     properties := ps; receivables := receivables d; gold := gold d;
     recipients := recipients d; payments := payments d; settings := settings d |}.

Definition set_cash (cs : list Cash) (d : Snapshot) : Snapshot :=
  {| members := members d; cash := cs; banks := banks d;
     properties := properties d; receivables := receivables d; gold := gold d;
     recipients := recipients d; payments := payments d; settings := settings d |}.

(** All the gold of a snapshot. *)
Definition gold_contribution (d : Snapshot) : Q :=
  calculate_total_zakat d - calculate_total_zakat (set_gold [] d).

(** One gold holding, appended to a snapshot. *)
Definition gold_holding_contribution (g : Gold) (d : Snapshot) : Q :=
  calculate_total_zakat (set_gold (gold d ++ [g]) d) - calculate_total_zakat d.

(** One property, appended to a snapshot. *)
Definition property_contribution (p : Property) (d : Snapshot) : Q :=
  calculate_total_zakat (set_properties (properties d ++ [p]) d) - calculate_total_zakat d.

(** One cash holding, appended to a snapshot. *)
Definition cash_contribution (c : Cash) (d : Snapshot) : Q :=
  calculate_total_zakat (set_cash (cash d ++ [c]) d) - calculate_total_zakat d.

(** The currency codes the dashboard aggregates, in the order it meets them. *)
Definition asset_currencies (d : Snapshot) : list string :=
  List.map cash_currency (cash d) ++ List.map bank_currency (banks d)
  ++ List.map rec_currency (receivables d).

(** ** Concrete records used in the examples *)

Definition mk_cash (code : string) (amount : Q) : Cash :=
  {| cash_id := 1; cash_holder := "Ali"; cash_location := "Home";
     cash_currency := code; cash_amount := amount |}.

Definition mk_gold (weight : Q) (purity : string) : Gold :=
  {| gold_id := 2; gold_owner := "Ali"; gold_description := "Bangles";
     gold_weight := weight; gold_purity := purity |}.

Definition mk_property (value : Q) (for_trade : string) : Property :=
  {| prop_id := 3; prop_name := "Shop"; prop_type := "Commercial";
     prop_location := "Lahore"; prop_value := value; prop_for_trade := Some for_trade |}.

Definition mk_recipient (id : Q) (name : string) : Recipient :=
  {| recipient_id := id; recipient_name := name; recipient_category := "Fuqara";
     recipient_nic := ""; recipient_mobile := ""; recipient_address := "";
     recipient_photo := ""; recipient_nic_photo := "" |}.

Definition mk_form (name : string) (amount : Q) : PaymentForm :=
  {| form_recipient := name; form_amount := amount; form_method := "Cash";
     form_date := "2024-03-01"; form_notes := "" |}.

(** An archived document holding 5 tola of 24k gold and nothing else. *)
Definition archive_with_gold : Snapshot :=
  set_gold [mk_gold 5 "24"] get_default_data.

(** The default document with the rate set to 5 percent: no gold at all,
    then a holding whose weight was left blank, then 5 tola of 24k gold. *)
Definition five_percent_no_gold : Snapshot := set_zakat_rate 5 get_default_data.

Definition five_percent_with_gold : Snapshot :=
  set_gold [mk_gold 5 "24"] five_percent_no_gold.

(** The default document with 100 Indian rupees in cash: "INR" is neither
    among [currencies] nor in the rate table. *)
Definition cash_in_rupees : Snapshot := set_cash [mk_cash "INR" 100] get_default_data.

(** A household in 2024 with 40000 rupees in cash (obligation 1000 at the
    default 2.5 percent), one recipient, nothing paid, and the document
    saved. *)
Definition ledger_data : Snapshot :=
  {| members := []; cash := [mk_cash "PKR" 40000]; banks := []; properties := [];
     receivables := []; gold := []; recipients := [mk_recipient 7 "Ali"];
     payments := []; settings := default_settings |}.

Definition ledger_state : State :=
  {| current_year := 2024; data := ledger_data;
     data_dir := {[ 2024%Z := ledger_data ]}; history_dir := ∅ |}.

(** Two runs that start from [ledger_state] in 2024.

    The first leaves 2024 for 2025 and comes back, which archives 2024, then
    records a payment of 400; it ends in a state whose active year has an
    archive older than the active document.  The second moves to 2029, a
    year for which nothing was ever saved. *)
Definition back_in_2024_with_payment : Result State :=
  s ← change_year 2025 ledger_state;
  s ← change_year 2024 s;
  add_payment_dialog 1 (mk_form "Ali" 400) s.

Definition fresh_2029 : Result State := change_year 2029 ledger_state.

(** ** Write-through

    [__init__] sets [data] by [load_data], and every handler that changes
    [data] saves it: the in-memory document is the one on disk for the
    current year, or the default document when that year has no file yet. *)
Definition write_through (s : State) : Prop :=
  match data_dir s !! current_year s with
  | Some doc => data s = doc
  | None => data s = get_default_data
  end.

(** ** New year and reset ([create_new_year], [reset_all_data]) *)

(** The archiving copy comes first and, unlike in [change_year], no
    [save_data] precedes it. *)
Definition create_new_year (confirm : bool) (s : State) : Result State :=
  let new_year := (current_year s + 1)%Z in
  if confirm then
    s ← archive_current s;
    let s := set_current_year new_year s in
    let s := set_data get_default_data s in
    mret (save_data s)
  else mret s.

(** Every [zakat_data_<year>.json] of the data directory is removed; the
    history directory is a sub-directory and [os.listdir] is not recursive. *)
Definition reset_all_data (confirm final : bool) (s : State) : State :=
  if confirm then
    if final then
      let s := {| current_year := current_year s; data := data s;
                  data_dir := ∅; history_dir := history_dir s |} in
      save_data (set_data get_default_data s)
    else s
  else s.

(** ** Text typed into a numeric field

    What matters of the text is how [float] takes it: the empty string, a
    text that [float] reads as a number, or a text on which it raises
    [ValueError]. *)
Inductive Entry :=
| Blank
| Numeric (value : Q)
| NotANumber.

Inductive Uncaught := ValueError.

(** [float(entry.get() or 0)] *)
Definition float_or_zero (e : Entry) : Uncaught + Q :=
  match e with
  | Blank => inr 0
  | Numeric q => inr q
  | NotANumber => inl ValueError
  end.

(** [float(entry.get())] *)
Definition float_of (e : Entry) : Uncaught + Q :=
  match e with
  | Blank => inl ValueError
  | Numeric q => inr q
  | NotANumber => inl ValueError
  end.

(** ** The add dialogs: build the record, append it, save

    [float] runs while the record is built, so a [ValueError] leaves the
    document as it was. *)

Definition set_members (ms : list Member) (d : Snapshot) : Snapshot :=
  {| members := ms; cash := cash d; banks := banks d;
     properties := properties d; receivables := receivables d; gold := gold d;
     recipients := recipients d; payments := payments d; settings := settings d |}.

Definition set_banks (bs : list Bank) (d : Snapshot) : Snapshot :=
  {| members := members d; cash := cash d; banks := bs;
     properties := properties d; receivables := receivables d; gold := gold d;
     recipients := recipients d; payments := payments d; settings := settings d |}.

Definition set_recipients (rs : list Recipient) (d : Snapshot) : Snapshot :=
  {| members := members d; cash := cash d; banks := banks d;
     properties := properties d; receivables := receivables d; gold := gold d;
     recipients := rs; payments := payments d; settings := settings d |}.

Definition add_member_dialog (now : Q) (name mobile nic address photo : string)
    (s : State) : State :=
  let member := {| member_id := now; member_name := name; member_mobile := mobile;
                   member_nic := nic; member_address := address;
                   member_photo := photo |} in
  save_data (set_data (set_members (members (data s) ++ [member]) (data s)) s).

Definition add_cash_dialog (now : Q) (holder location currency : string)
    (amount : Entry) (s : State) : Uncaught + State :=
  match float_or_zero amount with
  | inl e => inl e
  | inr amount =>
      let cash_record := {| cash_id := now; cash_holder := holder;
                            cash_location := location; cash_currency := currency;
                            cash_amount := amount |} in
      inr (save_data (set_data (set_cash (cash (data s) ++ [cash_record]) (data s)) s))
  end.

Definition add_bank_dialog (now : Q) (name account type currency : string)
    (balance : Entry) (s : State) : Uncaught + State :=
  match float_or_zero balance with
  | inl e => inl e
  | inr balance =>
      let bank := {| bank_id := now; bank_name := name; bank_account := account;
                     bank_type := type; bank_currency := currency;
                     bank_balance := balance |} in
      inr (save_data (set_data (set_banks (banks (data s) ++ [bank]) (data s)) s))
  end.

Definition add_property_dialog (now : Q) (name type location : string)
    (value : Entry) (trade_var : string) (s : State) : Uncaught + State :=
  match float_or_zero value with
  | inl e => inl e
  | inr value =>
      let prop := {| prop_id := now; prop_name := name; prop_type := type;
                     prop_location := location; prop_value := value;
                     prop_for_trade := Some trade_var |} in
      inr (save_data (set_data
             (set_properties (properties (data s) ++ [prop]) (data s)) s))
  end.

Definition add_gold_dialog (now : Q) (owner description : string)
    (weight : Entry) (purity : string) (s : State) : Uncaught + State :=
  match float_or_zero weight with
  | inl e => inl e
  | inr weight =>
      let gold_record := {| gold_id := now; gold_owner := owner;
                            gold_description := description;
                            gold_weight := weight; gold_purity := purity |} in
      inr (save_data (set_data (set_gold (gold (data s) ++ [gold_record]) (data s)) s))
  end.

Definition add_recipient_dialog (now : Q)
    (name category nic mobile address photo nic_photo : string) (s : State) : State :=
  let recipient := {| recipient_id := now; recipient_name := name;
                      recipient_category := category; recipient_nic := nic;
                      recipient_mobile := mobile; recipient_address := address;
                      recipient_photo := photo; recipient_nic_photo := nic_photo |} in
  save_data (set_data (set_recipients (recipients (data s) ++ [recipient]) (data s)) s).

(** ** Settings form ([save_settings])

    The assignments run one after another inside a [try]; a [ValueError]
    stops them where it is raised, and what was assigned before stays
    assigned in memory. *)

Record SettingsForm := {
  zakat_rate_entry : Entry;
  gold_24k_entry : Entry;
  gold_22k_entry : Entry;
  gold_18k_entry : Entry;
  currency_entries : string -> Entry
}.

(** The keys of [self.currency_entries]: every currency but the rupee. *)
Definition editable_currencies : list string :=
  List.filter (fun curr => negb (String.eqb curr "PKR")) currencies.

Definition with_settings (st : Settings) (d : Snapshot) : Snapshot :=
  {| members := members d; cash := cash d; banks := banks d;
     properties := properties d; receivables := receivables d; gold := gold d;
     recipients := recipients d; payments := payments d; settings := st |}.

Definition store_zakat_rate (v : Q) (st : Settings) : Settings :=
  {| zakat_rate := v; nisab := nisab st; gold_price_24k := gold_price_24k st;
     gold_price_22k := gold_price_22k st; gold_price_18k := gold_price_18k st;
     currency_rates := currency_rates st |}.

Definition store_gold_price_24k (v : Q) (st : Settings) : Settings :=
  {| zakat_rate := zakat_rate st; nisab := nisab st; gold_price_24k := v;
     gold_price_22k := gold_price_22k st; gold_price_18k := gold_price_18k st;
     currency_rates := currency_rates st |}.

Definition store_gold_price_22k (v : Q) (st : Settings) : Settings :=
  {| zakat_rate := zakat_rate st; nisab := nisab st; gold_price_24k := gold_price_24k st;
     gold_price_22k := v; gold_price_18k := gold_price_18k st;
     currency_rates := currency_rates st |}.

Definition store_gold_price_18k (v : Q) (st : Settings) : Settings :=
  {| zakat_rate := zakat_rate st; nisab := nisab st; gold_price_24k := gold_price_24k st;
     gold_price_22k := gold_price_22k st; gold_price_18k := v;
     currency_rates := currency_rates st |}.

Definition store_currency_rate (curr : string) (v : Q) (st : Settings) : Settings :=
  {| zakat_rate := zakat_rate st; nisab := nisab st; gold_price_24k := gold_price_24k st;
     gold_price_22k := gold_price_22k st; gold_price_18k := gold_price_18k st;
     currency_rates := <[curr := v]> (currency_rates st) |}.

(** A step of the [try] block: the state reached, or the exception together
    with the state in which it was raised. *)
Definition Attempt : Type := State -> (Uncaught * State) + State.

Definition and_then (a b : Attempt) : Attempt := fun s =>
  match a s with
  | inl raised => inl raised
  | inr s' => b s'
  end.

(** [self.data['settings'][...] = float(entry.get())] *)
Definition assign (e : Entry) (store : Q -> Settings -> Settings) : Attempt := fun s =>
  match float_of e with
  | inl err => inl (err, s)
  | inr v => inr (set_data (with_settings (store v (settings (data s))) (data s)) s)
  end.

Fixpoint assign_rates (entries : string -> Entry) (codes : list string) : Attempt :=
  match codes with
  | [] => fun s => inr s
  | curr :: codes' =>
      and_then (assign (entries curr) (store_currency_rate curr))
               (assign_rates entries codes')
  end.

Definition settings_assignments (f : SettingsForm) : Attempt :=
  and_then (assign (zakat_rate_entry f) store_zakat_rate)
 (and_then (assign (gold_24k_entry f) store_gold_price_24k)
 (and_then (assign (gold_22k_entry f) store_gold_price_22k)
 (and_then (assign (gold_18k_entry f) store_gold_price_18k)
           (assign_rates (currency_entries f) editable_currencies)))).

(** The state afterwards and the text of the message box. *)
Definition save_settings (f : SettingsForm) (s : State) : State * string :=
  match settings_assignments f s with
  | inr s' => (save_data s', "Settings saved!"%string)
  | inl (ValueError, s') => (s', "Please enter valid numbers!"%string)
  end.

(** ** The remaining tables ([refresh_members], [refresh_assets],
    [refresh_recipients], [refresh_payments]) and [refresh_all]

    A string holds the UTF-8 encoding of the program's text, so a character
    is a leading byte followed by its continuation bytes (those of the form
    10xxxxxx); [len] and slicing count characters, not bytes. *)

Definition is_continuation (c : Ascii.ascii) : bool :=
  match c with
  | Ascii.Ascii _ _ _ _ _ _ b6 b7 => b7 && negb b6
  end.

(** [len(text)] *)
Fixpoint char_length (text : string) : nat :=
  match text with
  | EmptyString => 0
  | String c rest =>
      if is_continuation c then char_length rest else S (char_length rest)
  end.

(** [text[:n]] *)
Fixpoint take_chars (n : nat) (text : string) : string :=
  match text with
  | EmptyString => EmptyString
  | String c rest =>
      if is_continuation c then String c (take_chars n rest)
      else match n with
           | O => EmptyString
           | S n' => String c (take_chars n' rest)
           end
  end.

(** [text[:n] + '...' if len(text) > n else text] *)
Definition shorten (n : nat) (text : string) : string :=
  if (n <? char_length text)%nat
  then (take_chars n text ++ "...")%string
  else text.

Record MemberRow := {
  mrow_name : string; mrow_mobile : string; mrow_nic : string;
  mrow_address : string; mrow_photo : string
}.

Definition member_row (m : Member) : MemberRow :=
  {| mrow_name := member_name m; mrow_mobile := member_mobile m;
     mrow_nic := member_nic m; mrow_address := shorten 30 (member_address m);
     mrow_photo := if String.eqb (member_photo m) "" then "No"%string else "Yes"%string |}.

Definition refresh_members (d : Snapshot) : list MemberRow :=
  List.map member_row (members d).

Record CashRow := {
  crow_holder : string; crow_location : string; crow_currency : string;
  crow_amount : Q; crow_pkr : Q
}.

Definition cash_row (st : Settings) (c : Cash) : CashRow :=
  let rate := rate_of (currency_rates st) (cash_currency c) in
  let pkr := cash_amount c * rate in
  {| crow_holder := cash_holder c; crow_location := cash_location c;
     crow_currency := cash_currency c; crow_amount := cash_amount c; crow_pkr := pkr |}.

Record BankRow := {
  brow_name : string; brow_account : string; brow_type : string;
  brow_currency : string; brow_balance : Q; brow_pkr : Q
}.

Definition bank_row (st : Settings) (b : Bank) : BankRow :=
  let rate := rate_of (currency_rates st) (bank_currency b) in
  let pkr := bank_balance b * rate in
  {| brow_name := bank_name b; brow_account := bank_account b;
     brow_type := bank_type b; brow_currency := bank_currency b;
     brow_balance := bank_balance b; brow_pkr := pkr |}.

Record AssetTables := {
  cash_table : list CashRow; banks_table : list BankRow;
  property_table : list PropertyRow
}.

Definition refresh_assets (d : Snapshot) : AssetTables :=
  {| cash_table := List.map (cash_row (settings d)) (cash d);
     banks_table := List.map (bank_row (settings d)) (banks d);
     property_table := refresh_properties d |}.

Record RecipientRow := {
  rrow_name : string; rrow_category : string; rrow_nic : string;
  rrow_mobile : string; rrow_address : string; rrow_total_received : Q
}.

Definition recipient_row (d : Snapshot) (r : Recipient) : RecipientRow :=
  {| rrow_name := recipient_name r; rrow_category := recipient_category r;
     rrow_nic := recipient_nic r; rrow_mobile := recipient_mobile r;
     rrow_address := shorten 20 (recipient_address r);
     rrow_total_received := total_received d r |}.

Definition refresh_recipients (d : Snapshot) : list RecipientRow :=
  List.map (recipient_row d) (recipients d).

Record PaymentRow := {
  payrow_date : string; payrow_recipient : string; payrow_amount : Q;
  payrow_method : string; payrow_notes : string
}.

(** [next((r for r in recipients if r['id'] == payment['recipient_id']), None)] *)
Definition recipient_of (d : Snapshot) (p : Payment) : option Recipient :=
  List.find (fun r => Qeq_bool (recipient_id r) (payment_recipient_id p)) (recipients d).

Definition payment_row (d : Snapshot) (p : Payment) : PaymentRow :=
  {| payrow_date := payment_date p;
     payrow_recipient := match recipient_of d p with
                         | Some recipient => recipient_name recipient
                         | None => "Unknown"%string
                         end;
     payrow_amount := payment_amount p; payrow_method := payment_method p;
     payrow_notes := take_chars 30 (payment_notes p) |}.

(** The rows and the figure of the "Available" label. *)
Definition refresh_payments (d : Snapshot) : list PaymentRow * Q :=
  let available := calculate_total_zakat d - calculate_total_paid d in
  (List.map (payment_row d) (payments d), available).

Record Screen := {
  dashboard_view : DashboardSummary;
  members_view : list MemberRow;
  assets_view : AssetTables;
  gold_view : list GoldRow;
  recipients_view : list RecipientRow;
  payments_view : list PaymentRow * Q;
  history_view : list HistoryRow
}.

(** The dashboard is refreshed first; an exception there leaves the other
    tables as they were. *)
Definition refresh_all (s : State) : Result Screen :=
  dashboard ← refresh_dashboard (data s);
  mret {| dashboard_view := dashboard;
          members_view := refresh_members (data s);
          assets_view := refresh_assets (data s);
          gold_view := refresh_gold (data s);
          recipients_view := refresh_recipients (data s);
          payments_view := refresh_payments (data s);
          history_view := refresh_history s |}.

(** [__init__]: the year of the clock, the document loaded for it, then
    [refresh_all]. *)
Definition startup (year : Z) (files archives : gmap Z Snapshot) : Result (State * Screen) :=
  let s := {| current_year := year; data := get_default_data;
              data_dir := files; history_dir := archives |} in
  let s := set_data (load_data s) s in
  screen ← refresh_all s;
  mret (s, screen).

(** [ledger_state] with the same document already saved for 2025 too. *)
Definition two_year_state : State :=
  {| current_year := 2024; data := ledger_data;
     data_dir := <[2025%Z := ledger_data]> {[ 2024%Z := ledger_data ]};
     history_dir := ∅ |}.

(** The recipients a payment refers to: those whose id is the payment's
    [recipient_id]. *)
Definition matching_recipients (d : Snapshot) (p : Payment) : list Recipient :=
  List.filter (fun r => Qeq_bool (payment_recipient_id p) (recipient_id r)) (recipients d).

(** Two recipients of the same name, and a positive balance. *)
Definition namesakes_state : State :=
  {| current_year := 2024;
     data := set_recipients [mk_recipient 7 "Ali"; mk_recipient 8 "Ali"] ledger_data;
     data_dir := ∅; history_dir := ∅ |}.

(** The amounts a snapshot holds in one currency: cash, then bank balances,
    then receivables. *)
Definition amounts_in (code : string) (d : Snapshot) : list Q :=
  List.map cash_amount
    (List.filter (fun c => String.eqb (cash_currency c) code) (cash d))
  ++ List.map bank_balance
       (List.filter (fun b => String.eqb (bank_currency b) code) (banks d))
  ++ List.map rec_amount
       (List.filter (fun r => String.eqb (rec_currency r) code) (receivables d)).

(** * Proofs *)

(** ** Sums computed by an accumulator *)

Section Accumulate.
Context {A : Type} (f : A -> Q).

Lemma fold_left_add_sum (l : list A) (acc : Q) :
  fold_left (fun t x => t + f x) l acc == acc + Qsum (List.map f l).
Proof.
  revert acc. induction l as [|x l IH]; intros acc; simpl.
  - ring.
  - rewrite IH. ring.
Qed.

Lemma fold_left_add_if_sum (keep : A -> bool) (l : list A) (acc : Q) :
  fold_left (fun t x => if keep x then t + f x else t) l acc
  == acc + Qsum (List.map f (List.filter keep l)).
Proof.
  revert acc. induction l as [|x l IH]; intros acc; simpl.
  - ring.
  - rewrite IH. destruct (keep x); simpl; ring.
Qed.
End Accumulate.

Lemma Qsum_app (l1 l2 : list Q) : Qsum (l1 ++ l2) == Qsum l1 + Qsum l2.
Proof.
  induction l1 as [|x l1 IH]; simpl.
  - ring.
  - rewrite IH. ring.
Qed.

Lemma zakatable_total_sum (d : Snapshot) :
  zakatable_total d == Qsum (zakatable_base_values d).
Proof.
  unfold zakatable_total, zakatable_base_values.
  unfold add_cash, add_bank, add_receivable, add_gold, add_property.
  rewrite (fold_left_add_if_sum prop_value is_for_trade).
  rewrite (fold_left_add_sum (gold_value (settings d))).
  rewrite (fold_left_add_sum
             (fun r => convert_to_base (rec_amount r) (rec_currency r)
                         (currency_rates (settings d)))).
  rewrite (fold_left_add_sum
             (fun b => convert_to_base (bank_balance b) (bank_currency b)
                         (currency_rates (settings d)))).
  rewrite (fold_left_add_sum
             (fun c => convert_to_base (cash_amount c) (cash_currency c)
                         (currency_rates (settings d)))).
  rewrite !Qsum_app.
  unfold convert_to_base, rate_of, gold_value, default, id. ring.
Qed.

(** C1.  [calculate_total_zakat] returns (zakat_rate / 100) times the sum of
    the zakatable base values: cash, bank and receivable amounts converted
    at the rate found in the rate table (rate 1 for a code the table lacks),
    gold at weight times the price of its purity tier, and the declared
    value of the properties whose trade flag is set.  On a snapshot with no
    asset at all the result is 0, whatever the settings. *)
Theorem calculate_total_zakat_spec :
  (forall d : Snapshot,
     calculate_total_zakat d
     == (zakat_rate (settings d) / 100) * Qsum (zakatable_base_values d))
  /\ (forall ms rs ps st,
        calculate_total_zakat
          {| members := ms; cash := []; banks := []; properties := [];
             receivables := []; gold := []; recipients := rs; payments := ps;
             settings := st |} == 0).
Proof.
  split.
  - intros d. unfold calculate_total_zakat.
    rewrite zakatable_total_sum. ring.
  - intros ms rs ps st. unfold calculate_total_zakat, zakatable_total. simpl.
    ring.
Qed.

Example cash_usd_contributes_700 :
  calculate_total_zakat (set_cash [mk_cash "USD" 100] get_default_data) == 700.
Proof. reflexivity. Qed.

Example gold_24k_contributes_31250 :
  calculate_total_zakat (set_gold [mk_gold 5 "24"] get_default_data) == 31250.
Proof. reflexivity. Qed.

Example trade_property_contributes_50000 :
  calculate_total_zakat (set_properties [mk_property 2000000 "yes"] get_default_data) == 50000
  /\ calculate_total_zakat (set_properties [mk_property 2000000 "no"] get_default_data) == 0.
Proof. split; reflexivity. Qed.

(** ** Gold tiers *)

(** C4.  The price tier follows the purity string: exactly "24" takes the 24k
    price, exactly "22" the 22k price, and every other string the 18k price;
    the value of a holding is its weight times that price. *)
Theorem gold_value_tiers (st : Settings) (g : Gold) :
  (gold_purity g = "24"%string -> gold_value st g = gold_weight g * gold_price_24k st)
  /\ (gold_purity g = "22"%string -> gold_value st g = gold_weight g * gold_price_22k st)
  /\ (gold_purity g <> "24"%string -> gold_purity g <> "22"%string ->
      gold_value st g = gold_weight g * gold_price_18k st).
Proof.
  unfold gold_value, gold_price. repeat split.
  - intros ->. reflexivity.
  - intros ->. reflexivity.
  - intros H24 H22.
    apply String.eqb_neq in H24, H22. rewrite H24, H22. reflexivity.
Qed.

Lemma gold_value_tiers_witness :
  gold_value default_settings (mk_gold 5 "24") = 5 * 250000
  /\ gold_value default_settings (mk_gold 5 "22") = 5 * 229000
  /\ gold_value default_settings (mk_gold 5 "21K") = 5 * 187500.
Proof.
  split; [|split].
  - apply (proj1 (gold_value_tiers default_settings (mk_gold 5 "24"))).
    reflexivity.
  - apply (proj1 (proj2 (gold_value_tiers default_settings (mk_gold 5 "22")))).
    reflexivity.
  - apply (proj2 (proj2 (gold_value_tiers default_settings (mk_gold 5 "21K")))).
    + simpl. discriminate.
    + simpl. discriminate.
Defined.

(** ** History listing against the obligation *)

Lemma calculate_total_paid_sum (d : Snapshot) :
  calculate_total_paid d == Qsum (List.map payment_amount (payments d)).
Proof.
  unfold calculate_total_paid.
  rewrite (fold_left_add_sum payment_amount). ring.
Qed.

(** What the history listing does compute: the rate applied to cash and
    bank balances only. *)
Lemma calculate_historical_zakat_sum (d : Snapshot) :
  calculate_historical_zakat d
  == (zakat_rate (settings d) / 100)
     * (Qsum (List.map (fun c => convert_to_base (cash_amount c) (cash_currency c)
                                   (currency_rates (settings d))) (cash d))
        + Qsum (List.map (fun b => convert_to_base (bank_balance b) (bank_currency b)
                                     (currency_rates (settings d))) (banks d))).
Proof.
  unfold calculate_historical_zakat, add_cash, add_bank.
  rewrite (fold_left_add_sum
             (fun b => convert_to_base (bank_balance b) (bank_currency b)
                         (currency_rates (settings d)))).
  rewrite (fold_left_add_sum
             (fun c => convert_to_base (cash_amount c) (cash_currency c)
                         (currency_rates (settings d)))).
  ring.
Qed.

(** The paid figure of a history row is the ledger total of that document. *)
Lemma history_row_total_paid (year : Z) (d : Snapshot) :
  hist_total_paid (history_row year d) = calculate_total_paid d
  /\ hist_remaining (history_row year d)
     = hist_total_zakat (history_row year d) - calculate_total_paid d.
Proof. split; reflexivity. Qed.

(** C2.  On an archived document holding 5 tola of 24k gold, the history row
    reports an obligation of 0 and a remaining balance of 0, while
    [calculate_total_zakat] on the same document gives 31250: the history
    listing leaves gold (and likewise receivables and trade property) out. *)
Theorem history_row_omits_gold :
  hist_total_zakat (history_row 2020 archive_with_gold) == 0
  /\ hist_remaining (history_row 2020 archive_with_gold) == 0
  /\ calculate_total_zakat archive_with_gold == 31250
  /\ remaining_balance archive_with_gold == 31250
  /\ ~ hist_total_zakat (history_row 2020 archive_with_gold)
       == calculate_total_zakat archive_with_gold.
Proof.
  repeat split; try reflexivity.
  intros H. vm_compute in H. discriminate H.
Qed.

(** ** Per-class zakat figures against the configured rate *)

Lemma fixed_rate_agrees_iff (v r : Q) :
  ~ r == 25 # 10 ->
  (v * fixed_rate == v * (r / 100) <-> v == 0).
Proof.
  intros Hr. split.
  - intros H.
    assert (Hz : v * (fixed_rate - r / 100) == 0).
    { assert (E : v * (fixed_rate - r / 100) == v * fixed_rate - v * (r / 100))
        by ring.
      rewrite E, H. ring. }
    apply Qmult_integral in Hz. destruct Hz as [Hz|Hz]; [exact Hz|].
    exfalso. apply Hr. unfold fixed_rate in Hz.
    assert (E : r == (25 # 1000) * 100 - ((25 # 1000) - r / 100) * 100)
      by field.
    rewrite E, Hz. reflexivity.
  - intros ->. ring.
Qed.

Lemma total_gold_value_sum (d : Snapshot) :
  total_gold_value (gold_summary d)
  == Qsum (List.map (gold_value (settings d)) (gold d)).
Proof.
  unfold gold_summary, add_gold. simpl.
  rewrite (fold_left_add_sum (gold_value (settings d))). ring.
Qed.

Lemma gold_contribution_value (d : Snapshot) :
  gold_contribution d
  == total_gold_value (gold_summary d) * (zakat_rate (settings d) / 100).
Proof.
  rewrite total_gold_value_sum.
  unfold gold_contribution, calculate_total_zakat.
  rewrite !zakatable_total_sum. unfold zakatable_base_values. simpl.
  rewrite !Qsum_app. simpl. unfold gold_value. ring.
Qed.

Lemma gold_holding_contribution_value (g : Gold) (d : Snapshot) :
  gold_holding_contribution g d
  == gold_value (settings d) g * (zakat_rate (settings d) / 100).
Proof.
  unfold gold_holding_contribution, calculate_total_zakat.
  rewrite !zakatable_total_sum. unfold zakatable_base_values. simpl.
  rewrite List.map_app, !Qsum_app. simpl. unfold gold_value. ring.
Qed.

Lemma property_contribution_value (p : Property) (d : Snapshot) :
  property_contribution p d
  == (if is_for_trade p then prop_value p else 0) * (zakat_rate (settings d) / 100).
Proof.
  unfold property_contribution, calculate_total_zakat.
  rewrite !zakatable_total_sum. unfold zakatable_base_values. simpl.
  rewrite List.filter_app, List.map_app, !Qsum_app. simpl.
  destruct (is_for_trade p); simpl; ring.
Qed.

(** C8 as stated fails on snapshots whose gold is worth nothing: with the
    rate set to 5 and no gold recorded, the gold summary's zakat figure and
    the gold's share of the obligation are both 0; the same holds for the
    row of a holding of weight 0. *)
Lemma per_class_figures_agree_on_zero_value :
  ~ zakat_rate (settings five_percent_no_gold) == 25 # 10
  /\ gold_summary_zakat (gold_summary five_percent_no_gold)
     == gold_contribution five_percent_no_gold
  /\ grow_zakat (gold_row (settings five_percent_no_gold) (mk_gold 0 "24"))
     == gold_holding_contribution (mk_gold 0 "24") five_percent_no_gold.
Proof.
  split; [|split].
  - intros H. vm_compute in H. discriminate H.
  - reflexivity.
  - reflexivity.
Qed.

(** C8, amended.  The gold summary's zakat, each gold row's zakat and each
    property row's zakat are the asset value times the literal 2.5 percent
    (0 for a property that is not for trade), whatever [zakat_rate] is set
    to.  When [zakat_rate] differs from 2.5, such a figure agrees with the
    asset's share of [calculate_total_zakat] exactly when the value is 0; it
    disagrees for every asset of non-zero value. *)
Theorem per_class_zakat_uses_fixed_rate (d : Snapshot) :
  (gold_summary_zakat (gold_summary d)
   == Qsum (List.map (gold_value (settings d)) (gold d)) * (25 # 1000))
  /\ (forall g, grow_zakat (gold_row (settings d) g)
                == gold_value (settings d) g * (25 # 1000))
  /\ (forall p, prow_zakat (property_row p)
                == (if is_for_trade p then prop_value p else 0) * (25 # 1000))
  /\ (forall r, gold_summary (set_zakat_rate r d) = gold_summary d
                /\ refresh_gold (set_zakat_rate r d) = refresh_gold d
                /\ refresh_properties (set_zakat_rate r d) = refresh_properties d)
  /\ (~ zakat_rate (settings d) == 25 # 10 ->
      (gold_summary_zakat (gold_summary d) == gold_contribution d
       <-> Qsum (List.map (gold_value (settings d)) (gold d)) == 0)
      /\ (forall g, grow_zakat (gold_row (settings d) g) == gold_holding_contribution g d
                    <-> gold_value (settings d) g == 0)
      /\ (forall p, prow_zakat (property_row p) == property_contribution p d
                    <-> (if is_for_trade p then prop_value p else 0) == 0)).
Proof.
  assert (Hprow : forall p, prow_zakat (property_row p)
                  == (if is_for_trade p then prop_value p else 0) * fixed_rate).
  { intros p. unfold property_row. simpl. destruct (is_for_trade p); ring. }
  assert (Hsum : gold_summary_zakat (gold_summary d)
                 == Qsum (List.map (gold_value (settings d)) (gold d)) * fixed_rate).
  { rewrite <- total_gold_value_sum. reflexivity. }
  split; [exact Hsum|].
  split; [intros g; reflexivity|].
  split; [exact Hprow|].
  split; [intros r; repeat split; reflexivity|].
  intros Hr. split; [|split].
  - rewrite Hsum, gold_contribution_value, total_gold_value_sum.
    apply fixed_rate_agrees_iff. exact Hr.
  - intros g. rewrite gold_holding_contribution_value.
    change (grow_zakat (gold_row (settings d) g))
      with (gold_value (settings d) g * fixed_rate).
    apply fixed_rate_agrees_iff. exact Hr.
  - intros p. rewrite Hprow, property_contribution_value.
    apply fixed_rate_agrees_iff. exact Hr.
Qed.

Lemma per_class_zakat_uses_fixed_rate_witness :
  ~ zakat_rate (settings five_percent_with_gold) == 25 # 10
  /\ ~ gold_summary_zakat (gold_summary five_percent_with_gold)
       == gold_contribution five_percent_with_gold.
Proof.
  assert (Hr : ~ zakat_rate (settings five_percent_with_gold) == 25 # 10).
  { intros H. vm_compute in H. discriminate H. }
  split; [exact Hr|].
  intros H.
  apply (proj1 (proj2 (proj2 (proj2 (proj2
           (per_class_zakat_uses_fixed_rate five_percent_with_gold)))) Hr)) in H.
  vm_compute in H. discriminate H.
Defined.

(** ** The per-currency table of the dashboard *)

Lemma fold_insert_lookup_None (l : list string) (m : gmap string Q) (k : string) :
  fold_left (fun m c => <[c := 0]> m) l m !! k = None
  <-> m !! k = None /\ ~ In k l.
Proof.
  revert m. induction l as [|c l IH]; intros m; simpl.
  - tauto.
  - rewrite IH. rewrite lookup_insert_None. intuition congruence.
Qed.

Lemma init_currency_totals_None (k : string) :
  init_currency_totals !! k = None <-> ~ In k currencies.
Proof.
  unfold init_currency_totals. rewrite fold_insert_lookup_None.
  rewrite lookup_empty. tauto.
Qed.

Section CurrencyLoop.
Context {A : Type} (code : A -> string) (amount : A -> Q).

Lemma for_each_cons (x : A) (l : list A) (t : gmap string Q) :
  for_each (fun t x => add_to_currency t (code x) (amount x)) (x :: l) t
  = match t !! code x with
    | Some v => for_each (fun t x => add_to_currency t (code x) (amount x)) l
                  (<[code x := v + amount x]> t)
    | None => inl (KeyError (code x))
    end.
Proof.
  simpl. unfold add_to_currency.
  destruct (t !! code x); reflexivity.
Qed.

(** The loop either raises [KeyError] on a code the table lacks, or it
    completes, every code it met was in the table, and the table has the
    keys it had. *)
Lemma for_each_outcome (l : list A) (t : gmap string Q) :
  (exists k, t !! k = None
             /\ for_each (fun t x => add_to_currency t (code x) (amount x)) l t
                = inl (KeyError k))
  \/ (exists t', for_each (fun t x => add_to_currency t (code x) (amount x)) l t
                 = inr t'
                 /\ (forall k, t' !! k = None <-> t !! k = None)
                 /\ (forall k, In k (List.map code l) -> t !! k <> None)).
Proof.
  revert t. induction l as [|x l IH]; intros t.
  - right. exists t. split; [reflexivity|]. split; [tauto|]. intros k [].
  - rewrite for_each_cons. simpl List.map.
    destruct (t !! code x) as [v|] eqn:Hx.
    + assert (Hkeys : forall k, <[code x := v + amount x]> t !! k = None
                                <-> t !! k = None).
      { intros k. rewrite lookup_insert_None. split; [tauto|].
        intros Hk. split; [exact Hk|congruence]. }
      destruct (IH (<[code x := v + amount x]> t))
        as [(k & Hk & Hrun)|(t' & Hrun & Hsame & Hall)].
      * left. exists k. split; [apply Hkeys, Hk|exact Hrun].
      * right. exists t'. split; [exact Hrun|]. split.
        -- intros k. rewrite Hsame. apply Hkeys.
        -- intros k [<-|Hin]; [congruence|].
           intros Hk. apply (Hall k Hin). apply Hkeys, Hk.
    + left. exists (code x). split; [exact Hx|reflexivity].
Qed.
End CurrencyLoop.

Lemma currency_totals_raises (d : Snapshot) (k : string) :
  In k (asset_currencies d) -> ~ In k currencies ->
  exists k', ~ In k' currencies /\ currency_totals d = inl (KeyError k').
Proof.
  intros Hin Hk. apply init_currency_totals_None in Hk.
  unfold asset_currencies in Hin. unfold currency_totals.
  destruct (for_each_outcome cash_currency cash_amount (cash d)
              init_currency_totals) as [(k1 & Hk1 & Hrun1)|(t1 & Hrun1 & Hsame1 & Hall1)];
    rewrite Hrun1; simpl.
  { exists k1. split; [apply init_currency_totals_None, Hk1|reflexivity]. }
  destruct (for_each_outcome bank_currency bank_balance (banks d) t1)
    as [(k2 & Hk2 & Hrun2)|(t2 & Hrun2 & Hsame2 & Hall2)];
    rewrite Hrun2; simpl.
  { exists k2. split; [|reflexivity].
    apply init_currency_totals_None, Hsame1, Hk2. }
  destruct (for_each_outcome rec_currency rec_amount (receivables d) t2)
    as [(k3 & Hk3 & Hrun3)|(t3 & Hrun3 & Hsame3 & Hall3)];
    rewrite Hrun3.
  { exists k3. split; [|reflexivity].
    apply init_currency_totals_None, Hsame1, Hsame2, Hk3. }
  exfalso.
  apply in_app_or in Hin. destruct Hin as [Hin|Hin].
  { exact (Hall1 k Hin Hk). }
  apply in_app_or in Hin. destruct Hin as [Hin|Hin].
  - apply (Hall2 k Hin). apply Hsame1, Hk.
  - apply (Hall3 k Hin). apply Hsame2, Hsame1, Hk.
Qed.

Lemma cash_contribution_value (c : Cash) (d : Snapshot) :
  cash_contribution c d
  == convert_to_base (cash_amount c) (cash_currency c) (currency_rates (settings d))
     * (zakat_rate (settings d) / 100).
Proof.
  unfold cash_contribution, calculate_total_zakat.
  rewrite !zakatable_total_sum. unfold zakatable_base_values. simpl.
  rewrite List.map_app, !Qsum_app. simpl.
  unfold convert_to_base, rate_of, default, id. ring.
Qed.

(** C10.  The dashboard's per-currency table starts from exactly the ten
    codes of [currencies].  On every snapshot holding a cash, bank or
    receivable record whose currency code is not one of them, the
    aggregation raises [KeyError] and the whole dashboard summary fails with
    it, although [calculate_total_zakat] still values the snapshot, counting
    a cash record whose code the rate table lacks at rate 1. *)
Theorem currency_breakdown_key_error :
  length currencies = 10%nat
  /\ (forall k, is_Some (init_currency_totals !! k) <-> In k currencies)
  /\ (forall (d : Snapshot) (k : string),
        In k (asset_currencies d) -> ~ In k currencies ->
        (exists k', ~ In k' currencies
                    /\ currency_totals d = inl (KeyError k')
                    /\ refresh_dashboard d = inl (KeyError k'))
        /\ calculate_total_zakat d
           == (zakat_rate (settings d) / 100) * Qsum (zakatable_base_values d))
  /\ (forall (c : Cash) (d : Snapshot),
        currency_rates (settings d) !! cash_currency c = None ->
        cash_contribution c d == cash_amount c * 1 * (zakat_rate (settings d) / 100)).
Proof.
  split; [reflexivity|]. split; [|split].
  - intros k. rewrite <- not_eq_None_Some, init_currency_totals_None.
    split.
    + intros H. destruct (In_dec string_dec k currencies) as [Hin|Hout];
        [exact Hin|contradiction].
    + tauto.
  - intros d k Hin Hout. split.
    + destruct (currency_totals_raises d k Hin Hout) as (k' & Hk' & Hrun).
      exists k'. split; [exact Hk'|]. split; [exact Hrun|].
      unfold refresh_dashboard, currency_rows. rewrite Hrun. reflexivity.
    + unfold calculate_total_zakat. rewrite zakatable_total_sum. ring.
  - intros c d Hnone. rewrite cash_contribution_value.
    unfold convert_to_base, rate_of. rewrite Hnone. reflexivity.
Qed.

Lemma currency_breakdown_key_error_witness :
  (exists k', ~ In k' currencies
              /\ currency_totals cash_in_rupees = inl (KeyError k')
              /\ refresh_dashboard cash_in_rupees = inl (KeyError k'))
  /\ cash_contribution (mk_cash "INR" 100) get_default_data
     == 100 * 1 * (zakat_rate (settings get_default_data) / 100).
Proof.
  split.
  - apply (proj1 (proj2 (proj2 currency_breakdown_key_error))
             cash_in_rupees "INR"%string).
    + simpl. left. reflexivity.
    + simpl. intuition discriminate.
  - apply (proj2 (proj2 (proj2 currency_breakdown_key_error))
             (mk_cash "INR" 100) get_default_data).
    reflexivity.
Defined.

Example dashboard_fails_on_rupees :
  refresh_dashboard cash_in_rupees = inl (KeyError "INR")
  /\ calculate_total_zakat cash_in_rupees == 25 # 10.
Proof. split; reflexivity. Qed.

(** ** Recording payments *)

Lemma find_recipient_Some (name : string) (d : Snapshot) (r : Recipient) :
  find_recipient name d = Some r ->
  In r (recipients d) /\ recipient_name r = name.
Proof.
  unfold find_recipient. intros H. apply List.find_some in H.
  destruct H as [Hin Hname]. split; [exact Hin|].
  apply String.eqb_eq. exact Hname.
Qed.

Lemma find_recipient_None (name : string) (d : Snapshot) :
  find_recipient name d = None <->
  (forall r, In r (recipients d) -> recipient_name r <> name).
Proof.
  unfold find_recipient. split.
  - intros H r Hin. apply String.eqb_neq.
    exact (List.find_none _ _ H r Hin).
  - intros H. destruct (List.find _ _) as [r|] eqn:E; [|reflexivity].
    apply List.find_some in E. destruct E as [Hin Hname].
    apply String.eqb_eq in Hname. destruct (H r Hin Hname).
Qed.

Lemma Qle_bool_false (x y : Q) : Qle_bool x y = false <-> y < x.
Proof.
  rewrite <- not_true_iff_false, Qle_bool_iff. split.
  - apply Qnot_le_lt.
  - apply Qlt_not_le.
Qed.

(** The dialog opens exactly when there is a recipient and the balance is
    positive, and then hands over the balance computed from the document. *)
Lemma open_payment_dialog_inr (s : State) (available : Q) :
  open_payment_dialog s = inr available <->
  recipients (data s) <> [] /\ 0 < remaining_balance (data s)
  /\ available = remaining_balance (data s).
Proof.
  unfold open_payment_dialog, remaining_balance.
  destruct (recipients (data s)) as [|r rs].
  - split; [discriminate|]. intros [H _]. congruence.
  - destruct (Qle_bool _ 0) eqn:E.
    + split; [discriminate|]. intros (_ & Hpos & _).
      apply Qle_bool_iff in E. destruct (Qlt_not_le _ _ Hpos E).
    + apply Qle_bool_false in E. split.
      * intros [= <-]. repeat split; [discriminate|exact E].
      * intros (_ & _ & ->). reflexivity.
Qed.

(** A payment goes through exactly when the dialog opens, the amount is not
    above the balance, and the name in the form is that of a recipient. *)
Lemma add_payment_dialog_inr (now : Q) (f : PaymentForm) (s s' : State) :
  add_payment_dialog now f s = inr s' <->
  exists r,
    find_recipient (form_recipient f) (data s) = Some r
    /\ 0 < remaining_balance (data s)
    /\ form_amount f <= remaining_balance (data s)
    /\ s' = save_data (set_data (append_payment (make_payment now r f) (data s)) s).
Proof.
  unfold add_payment_dialog. split.
  - destruct (open_payment_dialog s) as [e|available] eqn:Hopen; simpl;
      [discriminate|].
    apply open_payment_dialog_inr in Hopen. destruct Hopen as (_ & Hpos & ->).
    unfold save_payment.
    destruct (Qle_bool (form_amount f) _) eqn:Hle; simpl; [|discriminate].
    apply Qle_bool_iff in Hle.
    destruct (find_recipient _ _) as [r|] eqn:Hfind; [|discriminate].
    intros [= <-]. exists r. repeat split; assumption.
  - intros (r & Hfind & Hpos & Hle & ->).
    assert (Hopen : open_payment_dialog s = inr (remaining_balance (data s))).
    { apply open_payment_dialog_inr. repeat split; [|exact Hpos].
      apply find_recipient_Some in Hfind. destruct Hfind as [Hin _].
      intros E. rewrite E in Hin. exact Hin. }
    rewrite Hopen. simpl. unfold save_payment.
    apply Qle_bool_iff in Hle. rewrite Hle, Hfind. reflexivity.
Qed.

(** C3.  Recording a payment fails when no recipient of the snapshot bears
    the name given, and when the amount exceeds the remaining balance
    computed at the call; a failed call leaves the payment list as it was.
    A successful call appends exactly one payment, for a recipient of the
    snapshot and of the amount entered, and the document saved for the
    current year is the new one. *)
Theorem record_payment_validation (now : Q) (f : PaymentForm) (s : State) :
  ((forall r, In r (recipients (data s)) -> recipient_name r <> form_recipient f) ->
   exists e, add_payment_dialog now f s = inl e)
  /\ (remaining_balance (data s) < form_amount f ->
      exists e, add_payment_dialog now f s = inl e)
  /\ (forall e, add_payment_dialog now f s = inl e ->
      payments (data (state_after (add_payment_dialog now f s) s)) = payments (data s)
      /\ state_after (add_payment_dialog now f s) s = s)
  /\ (forall s', add_payment_dialog now f s = inr s' ->
      exists r,
        In r (recipients (data s)) /\ recipient_name r = form_recipient f
        /\ payments (data s') = payments (data s) ++ [make_payment now r f]
        /\ length (payments (data s')) = S (length (payments (data s)))
        /\ data_dir s' !! current_year s' = Some (data s')).
Proof.
  split; [|split; [|split]].
  - intros Hnone. apply find_recipient_None in Hnone.
    destruct (add_payment_dialog now f s) as [e|s'] eqn:Hrun; [eauto|].
    apply add_payment_dialog_inr in Hrun.
    destruct Hrun as (r & Hfind & _). congruence.
  - intros Hover.
    destruct (add_payment_dialog now f s) as [e|s'] eqn:Hrun; [eauto|].
    apply add_payment_dialog_inr in Hrun.
    destruct Hrun as (r & _ & _ & Hle & _).
    destruct (Qlt_not_le _ _ Hover Hle).
  - intros e ->. split; reflexivity.
  - intros s' Hrun. apply add_payment_dialog_inr in Hrun.
    destruct Hrun as (r & Hfind & _ & _ & ->).
    apply find_recipient_Some in Hfind. destruct Hfind as [Hin Hname].
    exists r. split; [exact Hin|]. split; [exact Hname|].
    split; [reflexivity|]. split.
    + simpl. rewrite length_app. simpl. lia.
    + simpl. apply lookup_insert_eq.
Qed.

Lemma record_payment_validation_witness :
  (exists e, add_payment_dialog 1 (mk_form "Bob" 500) ledger_state = inl e)
  /\ (exists e, add_payment_dialog 1 (mk_form "Ali" 1500) ledger_state = inl e)
  /\ payments (data (state_after
                       (add_payment_dialog 1 (mk_form "Ali" 1500) ledger_state)
                       ledger_state)) = []
  /\ (exists r, In r (recipients ledger_data)
                /\ payments (data (state_after
                                     (add_payment_dialog 1 (mk_form "Ali" 400) ledger_state)
                                     ledger_state))
                   = [make_payment 1 r (mk_form "Ali" 400)]).
Proof.
  split; [|split; [|split]].
  - apply (proj1 (record_payment_validation 1 (mk_form "Bob" 500) ledger_state)).
    intros r [<-|[]]. simpl. discriminate.
  - apply (proj1 (proj2 (record_payment_validation 1 (mk_form "Ali" 1500) ledger_state))).
    reflexivity.
  - apply (proj1 (proj2 (proj2
             (record_payment_validation 1 (mk_form "Ali" 1500) ledger_state)))
             (ShowError "Amount exceeds available funds!")).
    reflexivity.
  - destruct (proj2 (proj2 (proj2
                (record_payment_validation 1 (mk_form "Ali" 400) ledger_state)))
                (save_data (set_data
                   (append_payment (make_payment 1 (mk_recipient 7 "Ali") (mk_form "Ali" 400))
                      ledger_data) ledger_state)))
      as (r & Hin & _ & Hpay & _).
    + reflexivity.
    + exists r. split; [exact Hin|]. exact Hpay.
Defined.

(** The example of the specification: obligation 1000, nothing paid, an
    amount of 1500 is refused and the ledger stays empty. *)
Example payment_of_1500_refused :
  calculate_total_zakat ledger_data == 1000
  /\ calculate_total_paid ledger_data == 0
  /\ add_payment_dialog 1 (mk_form "Ali" 1500) ledger_state
     = inl (ShowError "Amount exceeds available funds!").
Proof. repeat split. Qed.

(** C9 as stated fails when the name in the form is not that of a recipient:
    with one recipient, a balance of 1000 and an amount of 500, a payment to
    an unknown name is refused. *)
Lemma payment_to_unknown_name_refused :
  recipients (data ledger_state) <> []
  /\ 0 < remaining_balance (data ledger_state)
  /\ form_amount (mk_form "Bob" 500) <= remaining_balance (data ledger_state)
  /\ add_payment_dialog 1 (mk_form "Bob" 500) ledger_state
     = inl (ShowError "Please select a recipient!").
Proof.
  split; [discriminate|]. split; [reflexivity|]. split; [|reflexivity].
  intros H. vm_compute in H. discriminate H.
Qed.

(** C9, amended.  When the name in the form is that of a recipient and the
    remaining balance is strictly positive, every amount that is not above
    the balance is accepted: the balance itself, zero, and negative amounts
    alike, since the only test is [amount > available].  When the remaining
    balance is zero or negative, every attempt ends in a warning and no
    payment is made. *)
Theorem payment_amount_check (now : Q) (f : PaymentForm) (s : State) :
  (forall r, find_recipient (form_recipient f) (data s) = Some r ->
             0 < remaining_balance (data s) ->
             form_amount f <= remaining_balance (data s) ->
             add_payment_dialog now f s
             = inr (save_data (set_data
                      (append_payment (make_payment now r f) (data s)) s)))
  /\ (remaining_balance (data s) <= 0 ->
      exists message, add_payment_dialog now f s = inl (ShowWarning message)).
Proof.
  split.
  - intros r Hfind Hpos Hle. apply add_payment_dialog_inr.
    exists r. repeat split; assumption.
  - intros Hle. unfold add_payment_dialog, open_payment_dialog.
    destruct (recipients (data s)); [eexists; reflexivity|].
    fold (remaining_balance (data s)).
    apply Qle_bool_iff in Hle. rewrite Hle. eexists; reflexivity.
Qed.

Lemma payment_amount_check_witness :
  (exists s', add_payment_dialog 1 (mk_form "Ali" 1000) ledger_state = inr s')
  /\ (exists s', add_payment_dialog 1 (mk_form "Ali" 0) ledger_state = inr s')
  /\ (exists s', add_payment_dialog 1 (mk_form "Ali" (-50)) ledger_state = inr s')
  /\ (exists message,
        add_payment_dialog 2 (mk_form "Ali" 10)
          (state_after (add_payment_dialog 1 (mk_form "Ali" 1000) ledger_state)
             ledger_state)
        = inl (ShowWarning message)).
Proof.
  split; [|split; [|split]].
  - eexists.
    apply (proj1 (payment_amount_check 1 (mk_form "Ali" 1000) ledger_state)
             (mk_recipient 7 "Ali")).
    + reflexivity.
    + reflexivity.
    + intros H. vm_compute in H. discriminate H.
  - eexists.
    apply (proj1 (payment_amount_check 1 (mk_form "Ali" 0) ledger_state)
             (mk_recipient 7 "Ali")).
    + reflexivity.
    + reflexivity.
    + intros H. vm_compute in H. discriminate H.
  - eexists.
    apply (proj1 (payment_amount_check 1 (mk_form "Ali" (-50)) ledger_state)
             (mk_recipient 7 "Ali")).
    + reflexivity.
    + reflexivity.
    + intros H. vm_compute in H. discriminate H.
  - apply (proj2 (payment_amount_check 2 (mk_form "Ali" 10)
             (state_after (add_payment_dialog 1 (mk_form "Ali" 1000) ledger_state)
                ledger_state))).
    intros H. vm_compute in H. discriminate H.
Defined.

(** ** The ledger after a run of payments *)

(** C6.  After any run of successful payments the remaining balance is the
    obligation minus the total paid, the total paid being the sum of the
    amounts of all the payments of the snapshot: the payments made were
    appended to the list, the obligation is what it was, and the balance has
    dropped by the sum of the amounts paid.  The balance a new dialog works
    with is that same figure, computed from the snapshot. *)
Theorem ledger_balance_after_payments (reqs : list (Q * PaymentForm)) (s s' : State) :
  record_payments reqs s = inr s' ->
  remaining_balance (data s')
  == calculate_total_zakat (data s') - calculate_total_paid (data s')
  /\ calculate_total_paid (data s')
     == Qsum (List.map payment_amount (payments (data s')))
  /\ List.map payment_amount (payments (data s'))
     = List.map payment_amount (payments (data s))
       ++ List.map (fun req => form_amount (snd req)) reqs
  /\ calculate_total_zakat (data s') = calculate_total_zakat (data s)
  /\ remaining_balance (data s')
     == remaining_balance (data s)
        - Qsum (List.map (fun req => form_amount (snd req)) reqs)
  /\ (forall available, open_payment_dialog s' = inr available ->
                        available = remaining_balance (data s')).
Proof.
  intros Hrun.
  split; [reflexivity|]. split; [apply calculate_total_paid_sum|].
  assert (Hlist : List.map payment_amount (payments (data s'))
                  = List.map payment_amount (payments (data s))
                    ++ List.map (fun req => form_amount (snd req)) reqs
                  /\ calculate_total_zakat (data s') = calculate_total_zakat (data s)).
  { revert s Hrun. unfold record_payments.
    induction reqs as [|[now f] reqs IH]; intros s Hrun; simpl in Hrun.
    - injection Hrun as <-. rewrite app_nil_r. split; reflexivity.
    - destruct (add_payment_dialog now f s) as [e|s1] eqn:Hstep; simpl in Hrun;
        [discriminate|].
      apply add_payment_dialog_inr in Hstep.
      destruct Hstep as (r & _ & _ & _ & ->).
      destruct (IH _ Hrun) as [IHl IHz]. split.
      + rewrite IHl. simpl. rewrite List.map_app, <- app_assoc. reflexivity.
      + rewrite IHz. reflexivity. }
  destruct Hlist as [Hlist Hzakat].
  split; [exact Hlist|]. split; [exact Hzakat|]. split.
  - unfold remaining_balance. rewrite Hzakat, !calculate_total_paid_sum, Hlist.
    rewrite Qsum_app. ring.
  - intros available Hopen. apply open_payment_dialog_inr in Hopen. tauto.
Qed.

Lemma ledger_balance_after_payments_witness :
  remaining_balance
    (data (state_after
             (record_payments [(1, mk_form "Ali" 400); (2, mk_form "Ali" 600)] ledger_state)
             ledger_state))
  == remaining_balance (data ledger_state) - Qsum [400; 600].
Proof.
  apply (ledger_balance_after_payments
           [(1, mk_form "Ali" 400); (2, mk_form "Ali" 600)] ledger_state).
  reflexivity.
Defined.

(** ** Year archive *)

Lemma change_year_same (s : State) : change_year (current_year s) s = inr s.
Proof.
  unfold change_year.
  destruct (decide (current_year s <> current_year s)) as [Hne|_];
    [contradiction|reflexivity].
Qed.

Lemma change_year_other (new_year : Z) (s : State) :
  new_year <> current_year s ->
  change_year new_year s
  = inr {| current_year := new_year;
           data := match data_dir s !! new_year with
                   | Some d => d
                   | None => get_default_data
                   end;
           data_dir := <[current_year s := data s]> (data_dir s);
           history_dir := <[current_year s := data s]> (history_dir s) |}.
Proof.
  intros Hyear. unfold change_year.
  destruct (decide (new_year <> current_year s)) as [_|Heq]; [|contradiction].
  unfold archive_current, save_data. simpl.
  rewrite lookup_insert_eq. simpl.
  unfold set_data, set_current_year, load_data. simpl.
  rewrite lookup_insert_ne by congruence. reflexivity.
Qed.

(** C7.  Changing to the active year changes nothing.  Changing to another
    year saves the active document, archives it under the year it belongs
    to, and makes the target year active with the document persisted for it,
    or with the default document when none is persisted; the operation never
    fails. *)
Theorem change_year_spec (new_year : Z) (s : State) :
  (new_year = current_year s -> change_year new_year s = inr s)
  /\ (new_year <> current_year s ->
      change_year new_year s
      = inr {| current_year := new_year;
               data := match data_dir s !! new_year with
                       | Some d => d
                       | None => get_default_data
                       end;
               data_dir := <[current_year s := data s]> (data_dir s);
               history_dir := <[current_year s := data s]> (history_dir s) |}).
Proof.
  split.
  - intros ->. apply change_year_same.
  - apply change_year_other.
Qed.

Lemma change_year_spec_witness :
  change_year 2024 ledger_state = inr ledger_state
  /\ change_year 2025 ledger_state
     = inr {| current_year := 2025; data := get_default_data;
              data_dir := <[2024%Z := ledger_data]> (data_dir ledger_state);
              history_dir := <[2024%Z := ledger_data]> (history_dir ledger_state) |}.
Proof.
  split.
  - apply (proj1 (change_year_spec 2024 ledger_state)). reflexivity.
  - apply (proj2 (change_year_spec 2025 ledger_state)). simpl. lia.
Defined.

(** C5 as stated fails in two ways.  Restoring the year that is active
    overwrites that year's archive with the active document before reading
    it: the archive of 2024, which held no payment, holds one afterwards.
    And when no document was ever saved for the active year, the copy that
    should archive it raises and nothing is restored. *)
Lemma restore_overwrites_or_fails :
  (exists before after,
      back_in_2024_with_payment = inr before
      /\ current_year before = 2024%Z
      /\ restore_from_history true 2024 before = inr after
      /\ (payments <$> history_dir before !! 2024%Z) = Some []
      /\ (payments <$> history_dir after !! 2024%Z)
         = Some [make_payment 1 (mk_recipient 7 "Ali") (mk_form "Ali" 400)]
      /\ history_dir after !! 2024%Z <> history_dir before !! 2024%Z)
  /\ (exists s, fresh_2029 = inr s
                /\ data s = get_default_data
                /\ is_Some (history_dir s !! 2024%Z)
                /\ restore_from_history true 2024 s = inl (FileNotFoundError 2029)).
Proof.
  split.
  - eexists _, _. split; [reflexivity|]. split; [reflexivity|].
    split; [reflexivity|]. split; [reflexivity|]. split; [reflexivity|].
    intros H. apply (f_equal (fmap (fun d => length (payments d)))) in H.
    vm_compute in H. discriminate H.
  - eexists. split; [reflexivity|]. split; [reflexivity|].
    split; [eexists; reflexivity|]. reflexivity.
Qed.

Lemma refresh_history_lists (s : State) (year : Z) (doc : Snapshot) :
  history_dir s !! year = Some doc ->
  In (history_row year doc) (refresh_history s).
Proof.
  intros Hdoc. unfold refresh_history.
  apply (List.in_map (fun yd => history_row (fst yd) (snd yd))
           (map_to_list (history_dir s)) (year, doc)).
  apply list_elem_of_In, elem_of_map_to_list. exact Hdoc.
Qed.

(** C5, amended.  When the active document is the one saved for the active
    year, and [target] is an archived year other than the active one,
    restoring [target] succeeds: it archives the active document under the
    active year's key, then copies the archived document of [target] into
    the active slot, in memory and on disk, without changing the active
    year.  The archive of [target] is untouched, and the history listing
    still shows its row. *)
Theorem restore_from_history_spec (target : Z) (s : State) (doc : Snapshot) :
  data_dir s !! current_year s = Some (data s) ->
  history_dir s !! target = Some doc ->
  target <> current_year s ->
  exists s',
    restore_from_history true target s = inr s'
    /\ current_year s' = current_year s
    /\ history_dir s' = <[current_year s := data s]> (history_dir s)
    /\ data s' = doc
    /\ data_dir s' = <[current_year s := doc]> (data_dir s)
    /\ history_dir s' !! target = history_dir s !! target
    /\ In (history_row target doc) (refresh_history s').
Proof.
  intros Hsaved Hdoc Hne.
  assert (Hkept : <[current_year s := data s]> (history_dir s) !! target = Some doc).
  { rewrite lookup_insert_ne by congruence. exact Hdoc. }
  eexists. split.
  - unfold restore_from_history, archive_current. rewrite Hsaved. simpl.
    unfold copy_from_history. simpl. rewrite Hkept. simpl.
    unfold set_data, load_data. simpl. rewrite lookup_insert_eq. reflexivity.
  - simpl. repeat split.
    + rewrite Hkept, Hdoc. reflexivity.
    + apply refresh_history_lists. simpl. exact Hkept.
Qed.

Lemma restore_from_history_spec_witness :
  exists s',
    restore_from_history true 2025
      (state_after back_in_2024_with_payment ledger_state) = inr s'
    /\ current_year s' = 2024%Z
    /\ data s' = get_default_data
    /\ history_dir s' !! 2025%Z = Some get_default_data
    /\ In (history_row 2025 get_default_data) (refresh_history s').
Proof.
  destruct (restore_from_history_spec 2025
              (state_after back_in_2024_with_payment ledger_state)
              get_default_data)
    as (s' & Hrun & Hyear & _ & Hdata & _ & Hkept & Hrow).
  - reflexivity.
  - reflexivity.
  - intros H. vm_compute in H. discriminate H.
  - exists s'. split; [exact Hrun|]. split; [exact Hyear|]. split; [exact Hdata|].
    split; [rewrite Hkept; reflexivity|exact Hrow].
Defined.

(** ** Write-through is kept by every handler modelled here *)

Lemma write_through_change_year (new_year : Z) (s s' : State) :
  write_through s -> change_year new_year s = inr s' -> write_through s'.
Proof.
  intros Hs Hrun.
  destruct (decide (new_year = current_year s)) as [->|Hne].
  - rewrite change_year_same in Hrun. injection Hrun as <-. exact Hs.
  - rewrite (change_year_other new_year s Hne) in Hrun.
    injection Hrun as <-. unfold write_through. simpl.
    rewrite lookup_insert_ne by congruence.
    destruct (data_dir s !! new_year); reflexivity.
Qed.

Lemma write_through_add_payment (now : Q) (f : PaymentForm) (s s' : State) :
  add_payment_dialog now f s = inr s' -> write_through s'.
Proof.
  intros Hrun. apply add_payment_dialog_inr in Hrun.
  destruct Hrun as (r & _ & _ & _ & ->).
  unfold write_through. simpl. rewrite lookup_insert_eq. reflexivity.
Qed.

Lemma write_through_restore (confirm : bool) (year : Z) (s s' : State) :
  write_through s -> restore_from_history confirm year s = inr s' -> write_through s'.
Proof.
  intros Hs Hrun. unfold restore_from_history in Hrun.
  destruct confirm; [|injection Hrun as <-; exact Hs].
  unfold archive_current in Hrun.
  destruct (data_dir s !! current_year s) as [doc|]; simpl in Hrun; [|discriminate].
  unfold copy_from_history in Hrun. simpl in Hrun.
  destruct (<[current_year s := doc]> (history_dir s) !! year) as [src|];
    simpl in Hrun; [|discriminate].
  injection Hrun as <-. unfold write_through, load_data. simpl.
  rewrite lookup_insert_eq. reflexivity.
Qed.

(** In a write-through state, restoring fails on the archiving copy exactly
    when the active year has no document yet. *)
Lemma restore_fails_without_document (year : Z) (s : State) :
  data_dir s !! current_year s = None ->
  restore_from_history true year s = inl (FileNotFoundError (current_year s)).
Proof.
  intros Hnone. unfold restore_from_history, archive_current.
  rewrite Hnone. reflexivity.
Qed.

(** * Further properties of the program *)

(** ** Saving, loading and restarting *)

(** X1.  Loading after saving gives back the document that was saved; the
    save touches only the file of the current year, leaves the archives
    alone, and saving twice is the same as saving once. *)
Theorem save_load_round_trip (s : State) :
  load_data (save_data s) = data s
  /\ save_data (save_data s) = save_data s
  /\ (forall y, y <> current_year s -> data_dir (save_data s) !! y = data_dir s !! y)
  /\ history_dir (save_data s) = history_dir s
  /\ write_through (save_data s).
Proof.
  split; [|split; [|split; [|split]]].
  - unfold load_data, save_data. simpl. rewrite lookup_insert_eq. reflexivity.
  - unfold save_data. simpl. rewrite insert_insert_eq. reflexivity.
  - intros y Hy. unfold save_data. simpl.
    rewrite lookup_insert_ne by congruence. reflexivity.
  - reflexivity.
  - unfold write_through, save_data. simpl. rewrite lookup_insert_eq. reflexivity.
Qed.

Lemma load_data_write_through (s : State) :
  write_through s -> load_data s = data s.
Proof.
  unfold write_through, load_data.
  destruct (data_dir s !! current_year s); congruence.
Qed.

(** X2.  Restarting the program in the same year on the files of a
    write-through state brings back that very state: whenever start-up
    completes, the state it reaches is the one that was left. *)
Theorem restart_recovers_state (s : State) :
  write_through s ->
  startup (current_year s) (data_dir s) (history_dir s)
  = (screen ← refresh_all s; mret (s, screen)).
Proof.
  intros Hs. unfold startup.
  assert (E : set_data
                (load_data {| current_year := current_year s; data := get_default_data;
                              data_dir := data_dir s; history_dir := history_dir s |})
                {| current_year := current_year s; data := get_default_data;
                   data_dir := data_dir s; history_dir := history_dir s |} = s).
  { unfold set_data. simpl.
    change (load_data {| current_year := current_year s; data := get_default_data;
                         data_dir := data_dir s; history_dir := history_dir s |})
      with (load_data s).
    rewrite (load_data_write_through s Hs). destruct s; reflexivity. }
  cbv zeta. rewrite E. reflexivity.
Qed.

Lemma restart_recovers_state_witness :
  exists screen,
    startup 2024 (data_dir ledger_state) (history_dir ledger_state)
    = inr (ledger_state, screen).
Proof.
  eexists. etransitivity.
  - apply (restart_recovers_state ledger_state). reflexivity.
  - reflexivity.
Defined.

(** ** Moving between years *)

(** X3.  Changing to a year and back returns to the year and the document
    one started from, and both years are then archived: the first with the
    document it had on leaving, the second with the one that was loaded. *)
Theorem change_year_there_and_back (y : Z) (s : State) :
  exists s1 s2,
    change_year y s = inr s1
    /\ change_year (current_year s) s1 = inr s2
    /\ current_year s2 = current_year s
    /\ data s2 = data s
    /\ (y <> current_year s ->
        history_dir s2 !! current_year s = Some (data s)
        /\ history_dir s2 !! y = Some (data s1)
        /\ data_dir s2 !! y = Some (data s1)).
Proof.
  destruct (decide (y = current_year s)) as [->|Hne].
  - exists s, s. rewrite change_year_same.
    split; [reflexivity|]. split; [reflexivity|]. split; [reflexivity|].
    split; [reflexivity|]. intros H. contradiction.
  - eexists _, _. split; [apply (change_year_other y s Hne)|].
    split; [apply change_year_other; simpl; congruence|].
    simpl. split; [reflexivity|].
    split; [rewrite lookup_insert_eq; reflexivity|].
    intros _. split; [|split].
    + rewrite lookup_insert_ne by congruence. apply lookup_insert_eq.
    + apply lookup_insert_eq.
    + apply lookup_insert_eq.
Qed.

Lemma add_payment_dialog_frame (now : Q) (f : PaymentForm) (s s' : State) :
  add_payment_dialog now f s = inr s' ->
  current_year s' = current_year s
  /\ history_dir s' = history_dir s
  /\ (forall y, y <> current_year s -> data_dir s' !! y = data_dir s !! y).
Proof.
  intros Hrun. apply add_payment_dialog_inr in Hrun.
  destruct Hrun as (r & _ & _ & _ & ->). simpl.
  split; [reflexivity|]. split; [reflexivity|].
  intros y Hy. rewrite lookup_insert_ne by congruence. reflexivity.
Qed.

(** X4.  A payment recorded after a change of year leaves the year that was
    left as it was archived and saved: its archive and its data file still
    hold the document it had on leaving, and no other year's file or archive
    is touched. *)
Theorem archive_survives_payments (y : Z) (now : Q) (f : PaymentForm) (s s1 s2 : State) :
  y <> current_year s ->
  change_year y s = inr s1 ->
  add_payment_dialog now f s1 = inr s2 ->
  history_dir s2 !! current_year s = Some (data s)
  /\ data_dir s2 !! current_year s = Some (data s)
  /\ history_dir s2 = history_dir s1
  /\ (forall y', y' <> y -> data_dir s2 !! y' = data_dir s1 !! y').
Proof.
  intros Hne Hchange Hpay.
  rewrite (change_year_other y s Hne) in Hchange. injection Hchange as <-.
  destruct (add_payment_dialog_frame _ _ _ _ Hpay) as (_ & Hhist & Hfiles).
  simpl in Hhist, Hfiles.
  split; [rewrite Hhist; apply lookup_insert_eq|].
  split; [rewrite Hfiles by congruence; apply lookup_insert_eq|].
  split; [exact Hhist|exact Hfiles].
Qed.

Lemma archive_survives_payments_witness :
  exists s2,
    (s1 ← change_year 2025 two_year_state;
     add_payment_dialog 1 (mk_form "Ali" 400) s1) = inr s2
    /\ history_dir s2 !! 2024%Z = Some ledger_data
    /\ data_dir s2 !! 2024%Z = Some ledger_data.
Proof.
  eexists. split; [reflexivity|].
  destruct (archive_survives_payments 2025 1 (mk_form "Ali" 400) two_year_state
              _ _ ltac:(simpl; lia) eq_refl eq_refl) as (H1 & H2 & _).
  split; [exact H1|exact H2].
Defined.

(** ** Creating a new year *)

Lemma create_new_year_run (s : State) (doc : Snapshot) :
  data_dir s !! current_year s = Some doc ->
  create_new_year true s
  = inr {| current_year := (current_year s + 1)%Z;
           data := get_default_data;
           data_dir := <[(current_year s + 1)%Z := get_default_data]> (data_dir s);
           history_dir := <[current_year s := doc]> (history_dir s) |}.
Proof.
  intros Hdoc. unfold create_new_year, archive_current. rewrite Hdoc. reflexivity.
Qed.

Lemma create_new_year_raises (s : State) :
  data_dir s !! current_year s = None ->
  create_new_year true s = inl (FileNotFoundError (current_year s)).
Proof.
  intros Hnone. unfold create_new_year, archive_current. rewrite Hnone. reflexivity.
Qed.

(** X5.  Creating a new year archives the document found on disk for the
    current year, moves to the next year with the default document and saves
    it, so a document already saved for that next year is replaced by the
    default one; every other year's file, and the file of the year left, are
    kept.  Declining the confirmation changes nothing. *)
Theorem create_new_year_spec (s : State) (doc : Snapshot) :
  data_dir s !! current_year s = Some doc ->
  create_new_year false s = inr s
  /\ exists s',
       create_new_year true s = inr s'
       /\ current_year s' = (current_year s + 1)%Z
       /\ data s' = get_default_data
       /\ history_dir s' = <[current_year s := doc]> (history_dir s)
       /\ data_dir s' !! (current_year s + 1)%Z = Some get_default_data
       /\ (forall y, y <> (current_year s + 1)%Z -> data_dir s' !! y = data_dir s !! y)
       /\ write_through s'.
Proof.
  intros Hdoc. split; [reflexivity|].
  eexists. split; [apply (create_new_year_run s doc Hdoc)|]. simpl.
  split; [reflexivity|]. split; [reflexivity|]. split; [reflexivity|].
  split; [apply lookup_insert_eq|]. split.
  - intros y Hy. rewrite lookup_insert_ne by congruence. reflexivity.
  - unfold write_through. simpl. rewrite lookup_insert_eq. reflexivity.
Qed.

Lemma create_new_year_spec_witness :
  exists s',
    create_new_year true two_year_state = inr s'
    /\ data_dir two_year_state !! 2025%Z = Some ledger_data
    /\ data_dir s' !! 2025%Z = Some get_default_data
    /\ data_dir s' !! 2024%Z = Some ledger_data.
Proof.
  destruct (create_new_year_spec two_year_state ledger_data eq_refl)
    as (_ & s' & Hrun & _ & _ & _ & Hnext & Hkept & _).
  exists s'. split; [exact Hrun|]. split; [reflexivity|].
  split; [exact Hnext|]. rewrite Hkept; [reflexivity|]. simpl. lia.
Defined.

(** X6.  "New Year" and a restore both start by copying the data file of
    the current year, which nothing has saved when the program has just
    moved to, or started in, a year without a document: there they raise
    [FileNotFoundError] and change nothing. *)
Theorem new_year_needs_saved_document (y target : Z) (s : State) :
  (y <> current_year s -> data_dir s !! y = None ->
   exists s1, change_year y s = inr s1
              /\ data s1 = get_default_data
              /\ create_new_year true s1 = inl (FileNotFoundError y)
              /\ restore_from_history true target s1 = inl (FileNotFoundError y))
  /\ (forall archives,
        exists s0 screen,
          startup y ∅ archives = inr (s0, screen)
          /\ data s0 = get_default_data
          /\ create_new_year true s0 = inl (FileNotFoundError y)
          /\ restore_from_history true target s0 = inl (FileNotFoundError y)).
Proof.
  split.
  - intros Hne Hnone. eexists. split; [apply (change_year_other y s Hne)|].
    rewrite Hnone. simpl. split; [reflexivity|].
    assert (Hfile : <[current_year s := data s]> (data_dir s) !! y = None)
      by (rewrite lookup_insert_ne by congruence; exact Hnone).
    split.
    + apply create_new_year_raises. exact Hfile.
    + apply restore_fails_without_document. exact Hfile.
  - intros archives. eexists _, _. split; [reflexivity|]. simpl.
    split; [reflexivity|]. split.
    + apply create_new_year_raises. apply lookup_empty.
    + apply restore_fails_without_document. apply lookup_empty.
Qed.

Lemma new_year_needs_saved_document_witness :
  exists s1, change_year 2029 ledger_state = inr s1
             /\ create_new_year true s1 = inl (FileNotFoundError 2029).
Proof.
  destruct (proj1 (new_year_needs_saved_document 2029 2024 ledger_state))
    as (s1 & Hrun & _ & Hnew & _).
  - simpl. lia.
  - reflexivity.
  - exists s1. split; [exact Hrun|exact Hnew].
Defined.

(** X7.  After a new year has been created from a saved write-through state,
    changing back to the year that was left brings its document back, and
    the new year is then archived with the default document. *)
Theorem create_new_year_then_back (s : State) :
  data_dir s !! current_year s = Some (data s) ->
  exists s1 s2,
    create_new_year true s = inr s1
    /\ change_year (current_year s) s1 = inr s2
    /\ current_year s2 = current_year s
    /\ data s2 = data s
    /\ history_dir s2 !! current_year s = Some (data s)
    /\ history_dir s2 !! (current_year s + 1)%Z = Some get_default_data.
Proof.
  intros Hsaved. eexists _, _.
  split; [apply (create_new_year_run s (data s) Hsaved)|].
  split; [apply change_year_other; simpl; lia|]. simpl.
  split; [reflexivity|]. split; [|split].
  - rewrite lookup_insert_ne by lia. rewrite Hsaved. reflexivity.
  - rewrite lookup_insert_ne by lia. apply lookup_insert_eq.
  - apply lookup_insert_eq.
Qed.

Lemma create_new_year_then_back_witness :
  exists s2,
    (s1 ← create_new_year true ledger_state; change_year 2024 s1) = inr s2
    /\ data s2 = ledger_data.
Proof.
  destruct (create_new_year_then_back ledger_state eq_refl)
    as (s1 & s2 & Hnew & Hback & _ & Hdata & _).
  exists s2. rewrite Hnew. split; [exact Hback|exact Hdata].
Defined.

(** ** Restoring and resetting *)

Lemma restore_from_history_run (target : Z) (s : State) (doc src : Snapshot) :
  data_dir s !! current_year s = Some doc ->
  <[current_year s := doc]> (history_dir s) !! target = Some src ->
  restore_from_history true target s
  = inr {| current_year := current_year s; data := src;
           data_dir := <[current_year s := src]> (data_dir s);
           history_dir := <[current_year s := doc]> (history_dir s) |}.
Proof.
  intros Hdoc Hsrc. unfold restore_from_history, archive_current.
  rewrite Hdoc. simpl. unfold copy_from_history. simpl. rewrite Hsrc. simpl.
  unfold set_data, load_data. simpl. rewrite lookup_insert_eq. reflexivity.
Qed.

(** X8.  Restoring the year that is active restores nothing: in a saved
    write-through state the active document and the files stay as they are,
    and the active year's archive, whatever it held, now holds the active
    document. *)
Theorem restore_active_year (s : State) :
  data_dir s !! current_year s = Some (data s) ->
  restore_from_history true (current_year s) s
  = inr {| current_year := current_year s; data := data s;
           data_dir := data_dir s;
           history_dir := <[current_year s := data s]> (history_dir s) |}.
Proof.
  intros Hsaved.
  rewrite (restore_from_history_run (current_year s) s (data s) (data s) Hsaved)
    by apply lookup_insert_eq.
  rewrite (insert_id _ _ _ Hsaved). reflexivity.
Qed.

Lemma restore_active_year_witness :
  restore_from_history true 2024 ledger_state
  = inr {| current_year := 2024; data := ledger_data;
           data_dir := data_dir ledger_state;
           history_dir := <[2024%Z := ledger_data]> (history_dir ledger_state) |}.
Proof.
  apply (restore_active_year ledger_state). reflexivity.
Defined.

(** X9.  A restore cannot be taken back by a restore.  Restoring another
    year archives the active document under the active year; restoring the
    active year afterwards overwrites that archive with the restored
    document, so the active year's file and archive both hold the restored
    document and the document that was active is in neither. *)
Theorem restore_not_undone_by_restore (target : Z) (s : State) (doc : Snapshot) :
  data_dir s !! current_year s = Some (data s) ->
  history_dir s !! target = Some doc ->
  target <> current_year s ->
  exists s1 s2,
    restore_from_history true target s = inr s1
    /\ history_dir s1 !! current_year s = Some (data s)
    /\ restore_from_history true (current_year s) s1 = inr s2
    /\ data s2 = doc
    /\ data_dir s2 !! current_year s = Some doc
    /\ history_dir s2 !! current_year s = Some doc.
Proof.
  intros Hsaved Hdoc Hne. eexists _, _.
  split.
  { apply (restore_from_history_run target s (data s) doc Hsaved).
    rewrite lookup_insert_ne by congruence. exact Hdoc. }
  simpl. split; [apply lookup_insert_eq|].
  split.
  { apply restore_from_history_run; simpl; apply lookup_insert_eq. }
  simpl. split; [reflexivity|].
  split; apply lookup_insert_eq.
Qed.

Lemma restore_not_undone_by_restore_witness :
  exists s2,
    (s1 ← restore_from_history true 2025
            (state_after back_in_2024_with_payment ledger_state);
     restore_from_history true 2024 s1) = inr s2
    /\ payments (data (state_after back_in_2024_with_payment ledger_state)) <> []
    /\ data s2 = get_default_data
    /\ history_dir s2 !! 2024%Z = Some get_default_data.
Proof.
  destruct (restore_not_undone_by_restore 2025
              (state_after back_in_2024_with_payment ledger_state)
              get_default_data eq_refl eq_refl)
    as (s1 & s2 & Hone & _ & Htwo & Hdata & _ & Harchive).
  - intros H. vm_compute in H. discriminate H.
  - exists s2. rewrite Hone. split; [exact Htwo|].
    split; [simpl; discriminate|]. split; [exact Hdata|exact Harchive].
Defined.

(** X10.  A reset removes every data file and saves the default document for
    the current year, but leaves the archives alone.  Restoring an archived
    year other than the current one then brings its document back, while
    restoring the current year's own archive first overwrites it with the
    default document, which is all that comes back.  Declining either
    confirmation changes nothing. *)
Theorem reset_keeps_archives (s : State) :
  reset_all_data false true s = s
  /\ reset_all_data true false s = s
  /\ current_year (reset_all_data true true s) = current_year s
  /\ data (reset_all_data true true s) = get_default_data
  /\ data_dir (reset_all_data true true s) = {[ current_year s := get_default_data ]}
  /\ history_dir (reset_all_data true true s) = history_dir s
  /\ (forall target doc,
        history_dir s !! target = Some doc ->
        exists s',
          restore_from_history true target (reset_all_data true true s) = inr s'
          /\ data s' = (if decide (target = current_year s)
                        then get_default_data else doc)
          /\ history_dir s' !! current_year s = Some get_default_data).
Proof.
  split; [reflexivity|]. split; [reflexivity|]. split; [reflexivity|].
  split; [reflexivity|]. split; [reflexivity|]. split; [reflexivity|].
  intros target doc Hdoc.
  assert (Hfile : data_dir (reset_all_data true true s)
                  !! current_year (reset_all_data true true s)
                  = Some get_default_data) by apply lookup_insert_eq.
  destruct (decide (target = current_year s)) as [->|Hne].
  - eexists. split.
    + apply (restore_from_history_run _ _ _ get_default_data Hfile).
      apply lookup_insert_eq.
    + simpl. split; [reflexivity|apply lookup_insert_eq].
  - eexists. split.
    + apply (restore_from_history_run _ _ _ doc Hfile).
      simpl. rewrite lookup_insert_ne by congruence. exact Hdoc.
    + simpl. split; [reflexivity|apply lookup_insert_eq].
Qed.

Lemma reset_keeps_archives_witness :
  exists s',
    restore_from_history true 2024
      (reset_all_data true true (state_after back_in_2024_with_payment ledger_state))
    = inr s'
    /\ data s' = get_default_data
    /\ history_dir s' !! 2024%Z = Some get_default_data.
Proof.
  destruct (proj2 (proj2 (proj2 (proj2 (proj2 (proj2
              (reset_keeps_archives
                 (state_after back_in_2024_with_payment ledger_state)))))))
              2024%Z ledger_data eq_refl)
    as (s' & Hrun & Hdata & Harchive).
  exists s'. split; [exact Hrun|]. split; [exact Hdata|exact Harchive].
Defined.

(** ** Payments and the balance *)

Lemma paid_after_payment (p : Payment) (d : Snapshot) :
  calculate_total_paid (append_payment p d)
  == calculate_total_paid d + payment_amount p.
Proof.
  rewrite !calculate_total_paid_sum. simpl.
  rewrite List.map_app, Qsum_app. simpl. ring.
Qed.

Lemma remaining_after_payment (p : Payment) (d : Snapshot) :
  remaining_balance (append_payment p d) == remaining_balance d - payment_amount p.
Proof.
  unfold remaining_balance. rewrite paid_after_payment.
  change (calculate_total_zakat (append_payment p d)) with (calculate_total_zakat d).
  ring.
Qed.

Lemma save_payment_run (now available : Q) (f : PaymentForm) (s : State) (r : Recipient) :
  find_recipient (form_recipient f) (data s) = Some r ->
  form_amount f <= available ->
  save_payment now available f s
  = inr (save_data (set_data (append_payment (make_payment now r f) (data s)) s)).
Proof.
  intros Hfind Hle. unfold save_payment.
  apply Qle_bool_iff in Hle. rewrite Hle, Hfind. reflexivity.
Qed.

(** X11.  A payment that goes through lowers the remaining balance by its
    amount and never overdraws: afterwards the balance is not negative and
    the total paid does not exceed the obligation. *)
Theorem payment_never_overdraws (now : Q) (f : PaymentForm) (s s' : State) :
  add_payment_dialog now f s = inr s' ->
  remaining_balance (data s') == remaining_balance (data s) - form_amount f
  /\ 0 <= remaining_balance (data s')
  /\ calculate_total_paid (data s') <= calculate_total_zakat (data s').
Proof.
  intros Hrun. apply add_payment_dialog_inr in Hrun.
  destruct Hrun as (r & _ & _ & Hle & ->).
  assert (E : remaining_balance (data (save_data (set_data
                (append_payment (make_payment now r f) (data s)) s)))
              == remaining_balance (data s) - form_amount f)
    by apply remaining_after_payment.
  split; [exact E|].
  assert (Hpos : 0 <= remaining_balance (data (save_data (set_data
                   (append_payment (make_payment now r f) (data s)) s)))).
  { rewrite E. lra. }
  split; [exact Hpos|].
  unfold remaining_balance in Hpos. lra.
Qed.

Lemma payment_never_overdraws_witness :
  0 <= remaining_balance
         (data (state_after (add_payment_dialog 1 (mk_form "Ali" 1000) ledger_state)
                  ledger_state)).
Proof.
  apply (payment_never_overdraws 1 (mk_form "Ali" 1000) ledger_state).
  reflexivity.
Defined.

(** X12.  The balance a payment is checked against is the one computed when
    its dialog was opened.  Two dialogs opened on the same state both accept
    an amount up to that balance, one after the other, and the remaining
    balance ends at that balance minus both amounts, which is negative when
    the two amounts together exceed it. *)
Theorem stale_balance_allows_overdraw
    (n1 n2 available : Q) (f1 f2 : PaymentForm) (s : State) (r1 r2 : Recipient) :
  open_payment_dialog s = inr available ->
  find_recipient (form_recipient f1) (data s) = Some r1 ->
  find_recipient (form_recipient f2) (data s) = Some r2 ->
  form_amount f1 <= available ->
  form_amount f2 <= available ->
  exists s1 s2,
    save_payment n1 available f1 s = inr s1
    /\ save_payment n2 available f2 s1 = inr s2
    /\ payments (data s2)
       = payments (data s) ++ [make_payment n1 r1 f1; make_payment n2 r2 f2]
    /\ remaining_balance (data s2) == available - form_amount f1 - form_amount f2.
Proof.
  intros Hopen Hr1 Hr2 Hle1 Hle2.
  apply open_payment_dialog_inr in Hopen. destruct Hopen as (_ & _ & ->).
  eexists _, _. split; [apply (save_payment_run _ _ _ _ r1 Hr1 Hle1)|].
  split; [apply (save_payment_run _ _ _ _ r2); [exact Hr2|exact Hle2]|].
  split.
  - simpl. rewrite <- app_assoc. reflexivity.
  - simpl. rewrite !remaining_after_payment. simpl. ring.
Qed.

Lemma stale_balance_allows_overdraw_witness :
  exists s2,
    (s1 ← save_payment 1 1000 (mk_form "Ali" 1000) ledger_state;
     save_payment 2 1000 (mk_form "Ali" 1000) s1) = inr s2
    /\ remaining_balance (data s2) < 0.
Proof.
  destruct (stale_balance_allows_overdraw 1 2 (remaining_balance ledger_data)
              (mk_form "Ali" 1000) (mk_form "Ali" 1000) ledger_state
              (mk_recipient 7 "Ali") (mk_recipient 7 "Ali")
              eq_refl eq_refl eq_refl)
    as (s1 & s2 & H1 & H2 & _ & Hrem).
  - intros H. vm_compute in H. discriminate H.
  - intros H. vm_compute in H. discriminate H.
  - exists s2. split.
    + assert (E1 : save_payment 1 1000 (mk_form "Ali" 1000) ledger_state = inr s1)
        by (rewrite <- H1; reflexivity).
      rewrite E1. simpl. rewrite <- H2.
      unfold save_payment. reflexivity.
    + rewrite Hrem. reflexivity.
Defined.

(** ** Payments and recipients *)

Lemma find_first {A : Type} (p : A -> bool) (l : list A) (x : A) :
  List.find p l = Some x ->
  exists l1 l2, l = l1 ++ x :: l2 /\ p x = true /\ (forall y, In y l1 -> p y = false).
Proof.
  induction l as [|a l IH]; simpl; [discriminate|].
  destruct (p a) eqn:Ha.
  - intros [= ->]. exists [], l. split; [reflexivity|]. split; [exact Ha|].
    intros y [].
  - intros Hfind. destruct (IH Hfind) as (l1 & l2 & -> & Hx & Hl1).
    exists (a :: l1), l2. split; [reflexivity|]. split; [exact Hx|].
    intros y [<-|Hy]; [exact Ha|exact (Hl1 y Hy)].
Qed.

Lemma total_received_after_payment (p : Payment) (d : Snapshot) (r : Recipient) :
  total_received (append_payment p d) r
  == total_received d r
     + (if Qeq_bool (payment_recipient_id p) (recipient_id r)
        then payment_amount p else 0).
Proof.
  unfold total_received. rewrite !(fold_left_add_sum payment_amount). simpl.
  rewrite List.filter_app, List.map_app, Qsum_app. simpl.
  destruct (Qeq_bool _ _); simpl; ring.
Qed.

(** X13.  A payment is credited to the first recipient of the list that
    bears the name given, even when a later one bears it too: that
    recipient's total received goes up by the amount, and the total of every
    recipient with another id stays as it was. *)
Theorem payment_credited_to_first_match (now : Q) (f : PaymentForm) (s s' : State) :
  add_payment_dialog now f s = inr s' ->
  exists before r after,
    recipients (data s) = before ++ r :: after
    /\ recipient_name r = form_recipient f
    /\ (forall r0, In r0 before -> recipient_name r0 <> form_recipient f)
    /\ payments (data s') = payments (data s) ++ [make_payment now r f]
    /\ total_received (data s') r == total_received (data s) r + form_amount f
    /\ (forall r', ~ recipient_id r' == recipient_id r ->
                   total_received (data s') r' == total_received (data s) r').
Proof.
  intros Hrun. apply add_payment_dialog_inr in Hrun.
  destruct Hrun as (r & Hfind & _ & _ & ->).
  destruct (find_first _ _ _ Hfind) as (before & after & Hlist & Hname & Hbefore).
  exists before, r, after. split; [exact Hlist|].
  split; [apply String.eqb_eq, Hname|].
  split; [intros r0 Hr0; apply String.eqb_neq, Hbefore, Hr0|].
  split; [reflexivity|]. simpl. split.
  - rewrite total_received_after_payment. simpl.
    rewrite (proj2 (Qeq_bool_iff _ _) (Qeq_refl _)). reflexivity.
  - intros r' Hid. rewrite total_received_after_payment. simpl.
    destruct (Qeq_bool (recipient_id r) (recipient_id r')) eqn:E.
    + apply Qeq_bool_iff in E. destruct Hid. symmetry. exact E.
    + ring.
Qed.

Lemma payment_credited_to_first_match_witness :
  exists before r after,
    recipients (data namesakes_state) = before ++ r :: after
    /\ recipient_name r = "Ali"%string
    /\ (forall r0, In r0 before -> recipient_name r0 <> "Ali"%string)
    /\ payments (data (state_after
                         (add_payment_dialog 1 (mk_form "Ali" 400) namesakes_state)
                         namesakes_state))
       = [make_payment 1 r (mk_form "Ali" 400)]
    /\ total_received
         (data (state_after (add_payment_dialog 1 (mk_form "Ali" 400) namesakes_state)
                  namesakes_state)) r
       == total_received (data namesakes_state) r + 400
    /\ (forall r', ~ recipient_id r' == recipient_id r ->
          total_received
            (data (state_after (add_payment_dialog 1 (mk_form "Ali" 400) namesakes_state)
                     namesakes_state)) r'
          == total_received (data namesakes_state) r').
Proof.
  apply (payment_credited_to_first_match 1 (mk_form "Ali" 400) namesakes_state).
  reflexivity.
Defined.

Example second_namesake_gets_nothing :
  total_received
    (data (state_after (add_payment_dialog 1 (mk_form "Ali" 400) namesakes_state)
             namesakes_state)) (mk_recipient 8 "Ali") == 0.
Proof. reflexivity. Qed.

Lemma Qsum_map_add {A : Type} (f g : A -> Q) (l : list A) :
  Qsum (List.map (fun x => f x + g x) l)
  == Qsum (List.map f l) + Qsum (List.map g l).
Proof.
  induction l as [|x l IH]; simpl.
  - ring.
  - rewrite IH. ring.
Qed.

Lemma Qsum_map_ext {A : Type} (f g : A -> Q) (l : list A) :
  (forall x, f x == g x) -> Qsum (List.map f l) == Qsum (List.map g l).
Proof.
  intros Hfg. induction l as [|x l IH]; simpl.
  - reflexivity.
  - rewrite IH, Hfg. reflexivity.
Qed.

Lemma Qsum_map_if {A : Type} (keep : A -> bool) (a : Q) (l : list A) :
  Qsum (List.map (fun x => if keep x then a else 0) l)
  == a * inject_Z (Z.of_nat (length (List.filter keep l))).
Proof.
  induction l as [|x l IH]; simpl.
  - ring.
  - rewrite IH. destruct (keep x); simpl length.
    + rewrite Nat2Z.inj_succ. unfold Z.succ. rewrite inject_Z_plus. ring.
    + ring.
Qed.

Lemma received_by_all (rs : list Recipient) (ps : list Payment) :
  Qsum (List.map (fun r =>
          Qsum (List.map payment_amount
                  (List.filter (fun p => Qeq_bool (payment_recipient_id p)
                                                  (recipient_id r)) ps))) rs)
  == Qsum (List.map (fun p =>
             payment_amount p
             * inject_Z (Z.of_nat
                 (length (List.filter
                            (fun r => Qeq_bool (payment_recipient_id p) (recipient_id r))
                            rs)))) ps).
Proof.
  induction ps as [|p ps IH]; simpl.
  - induction rs as [|r rs IHr]; simpl; [reflexivity|]. rewrite IHr. ring.
  - rewrite <- IH, <- (Qsum_map_if _ (payment_amount p) rs), <- Qsum_map_add.
    apply Qsum_map_ext. intros r.
    destruct (Qeq_bool (payment_recipient_id p) (recipient_id r)); simpl; ring.
Qed.

(** X14.  When every payment of a snapshot refers to exactly one recipient
    of the snapshot, the "Total Received" column of the recipients table
    adds up to the total paid. *)
Theorem received_totals_add_up (d : Snapshot) :
  (forall p, In p (payments d) -> length (matching_recipients d p) = 1%nat) ->
  Qsum (List.map rrow_total_received (refresh_recipients d))
  == calculate_total_paid d.
Proof.
  intros Hone. unfold refresh_recipients. rewrite List.map_map. simpl.
  rewrite calculate_total_paid_sum.
  transitivity
    (Qsum (List.map (fun r =>
             Qsum (List.map payment_amount
                     (List.filter (fun p => Qeq_bool (payment_recipient_id p)
                                                     (recipient_id r)) (payments d))))
             (recipients d))).
  { apply Qsum_map_ext. intros r. unfold total_received.
    rewrite (fold_left_add_sum payment_amount). ring. }
  rewrite received_by_all.
  unfold matching_recipients in Hone. revert Hone.
  induction (payments d) as [|p ps IH]; intros Hone; simpl; [reflexivity|].
  rewrite IH by (intros q Hq; apply Hone; right; exact Hq).
  rewrite (Hone p) by (left; reflexivity). simpl. ring.
Qed.

Lemma received_totals_add_up_witness :
  Qsum (List.map rrow_total_received
          (refresh_recipients
             (data (state_after
                      (record_payments [(1, mk_form "Ali" 400); (2, mk_form "Ali" 600)]
                         namesakes_state) namesakes_state))))
  == calculate_total_paid
       (data (state_after
                (record_payments [(1, mk_form "Ali" 400); (2, mk_form "Ali" 600)]
                   namesakes_state) namesakes_state)).
Proof.
  apply received_totals_add_up.
  intros p [<-|[<-|[]]]; reflexivity.
Defined.

(** X15.  A payment that goes through adds exactly one row to the payments
    table and leaves the other rows as they were.  The row shows the
    amount, method and date entered, the first 30 characters of the notes,
    and the name of a recipient whose id is the one recorded in the
    payment, never the placeholder for a missing recipient; that name is the
    one entered whenever recipients with the same id have the same name. *)
Theorem payment_row_names_recipient (now : Q) (f : PaymentForm) (s s' : State) :
  add_payment_dialog now f s = inr s' ->
  exists r r',
    find_recipient (form_recipient f) (data s) = Some r
    /\ recipient_of (data s') (make_payment now r f) = Some r'
    /\ In r' (recipients (data s))
    /\ recipient_id r' == recipient_id r
    /\ fst (refresh_payments (data s'))
       = fst (refresh_payments (data s))
         ++ [{| payrow_date := form_date f; payrow_recipient := recipient_name r';
                payrow_amount := form_amount f; payrow_method := form_method f;
                payrow_notes := take_chars 30 (form_notes f) |}]
    /\ ((forall r0, In r0 (recipients (data s)) ->
                    recipient_id r0 == recipient_id r ->
                    recipient_name r0 = recipient_name r) ->
        recipient_name r' = form_recipient f).
Proof.
  intros Hrun. apply add_payment_dialog_inr in Hrun.
  destruct Hrun as (r & Hfind & _ & _ & ->).
  destruct (find_recipient_Some _ _ _ Hfind) as [Hin Hname].
  destruct (recipient_of (data s) (make_payment now r f)) as [r'|] eqn:Hof.
  2: { exfalso. unfold recipient_of in Hof.
       pose proof (List.find_none _ _ Hof r Hin) as Hno. simpl in Hno.
       rewrite (proj2 (Qeq_bool_iff _ _) (Qeq_refl _)) in Hno. discriminate Hno. }
  assert (Hsome := Hof). unfold recipient_of in Hsome.
  apply List.find_some in Hsome. destruct Hsome as [Hin' Hid'].
  simpl in Hid'. apply Qeq_bool_iff in Hid'.
  exists r, r'. split; [exact Hfind|]. split; [exact Hof|].
  split; [exact Hin'|]. split; [exact Hid'|]. split.
  - unfold refresh_payments. simpl. rewrite List.map_app. simpl.
    f_equal. f_equal. unfold payment_row at 1.
    change (recipient_of
              (append_payment (make_payment now r f) (data s))
              (make_payment now r f))
      with (recipient_of (data s) (make_payment now r f)).
    rewrite Hof. reflexivity.
  - intros Hsame. rewrite (Hsame r' Hin' Hid'). exact Hname.
Qed.

Lemma payment_row_names_recipient_witness :
  exists r r',
    find_recipient "Ali" (data ledger_state) = Some r
    /\ recipient_of
         (data (state_after (add_payment_dialog 1 (mk_form "Ali" 400) ledger_state)
                  ledger_state))
         (make_payment 1 r (mk_form "Ali" 400)) = Some r'
    /\ In r' (recipients (data ledger_state))
    /\ recipient_id r' == recipient_id r
    /\ fst (refresh_payments
              (data (state_after (add_payment_dialog 1 (mk_form "Ali" 400) ledger_state)
                       ledger_state)))
       = fst (refresh_payments (data ledger_state))
         ++ [{| payrow_date := "2024-03-01"; payrow_recipient := recipient_name r';
                payrow_amount := 400; payrow_method := "Cash";
                payrow_notes := "" |}]
    /\ ((forall r0, In r0 (recipients (data ledger_state)) ->
                    recipient_id r0 == recipient_id r ->
                    recipient_name r0 = recipient_name r) ->
        recipient_name r' = "Ali"%string).
Proof.
  apply (payment_row_names_recipient 1 (mk_form "Ali" 400) ledger_state).
  reflexivity.
Defined.

(** ** The per-currency table when it can be built *)

Lemma fold_insert_lookup_Some (l : list string) (m : gmap string Q) (k : string) (v : Q) :
  fold_left (fun m c => <[c := 0]> m) l m !! k = Some v ->
  v = 0 \/ m !! k = Some v.
Proof.
  revert m. induction l as [|c l IH]; intros m; simpl.
  - tauto.
  - intros H. destruct (IH _ H) as [Hz|Hm]; [left; exact Hz|].
    destruct (decide (c = k)) as [->|Hne].
    + rewrite lookup_insert_eq in Hm. injection Hm as <-. left. reflexivity.
    + rewrite lookup_insert_ne in Hm by exact Hne. right. exact Hm.
Qed.

Section CurrencyValues.
Context {A : Type} (code : A -> string) (amount : A -> Q).

(** A loop over records whose codes are all in the table completes. *)
Lemma for_each_completes (l : list A) (t : gmap string Q) :
  (forall k, In k (List.map code l) -> t !! k <> None) ->
  exists t', for_each (fun t x => add_to_currency t (code x) (amount x)) l t = inr t'.
Proof.
  revert t. induction l as [|x l IH]; intros t Hall.
  - exists t. reflexivity.
  - rewrite for_each_cons.
    destruct (t !! code x) as [v|] eqn:Hx.
    + apply IH. intros k Hk Hnone.
      apply lookup_insert_None in Hnone. destruct Hnone as [Hnone _].
      exact (Hall k (or_intror Hk) Hnone).
    + destruct (Hall (code x)); [left; reflexivity|exact Hx].
Qed.

(** Each entry of the table has grown by the amounts met under its code. *)
Lemma for_each_values (l : list A) (t t' : gmap string Q) (k : string) (v' : Q) :
  for_each (fun t x => add_to_currency t (code x) (amount x)) l t = inr t' ->
  t' !! k = Some v' ->
  exists v, t !! k = Some v
            /\ v' == v + Qsum (List.map amount
                                 (List.filter (fun x => String.eqb (code x) k) l)).
Proof.
  revert t. induction l as [|x l IH]; intros t Hrun Hk.
  - injection Hrun as <-. exists v'. split; [exact Hk|]. simpl. ring.
  - rewrite for_each_cons in Hrun.
    destruct (t !! code x) as [v0|] eqn:Hx; [|discriminate].
    destruct (IH _ Hrun Hk) as (v1 & Hv1 & Hsum). simpl.
    destruct (String.eqb (code x) k) eqn:E.
    + apply String.eqb_eq in E. subst k.
      rewrite lookup_insert_eq in Hv1. injection Hv1 as Hv1. subst v1.
      exists v0. split; [exact Hx|]. simpl. rewrite Hsum. ring.
    + apply String.eqb_neq in E.
      rewrite lookup_insert_ne in Hv1 by exact E.
      exists v1. split; [exact Hv1|exact Hsum].
Qed.
End CurrencyValues.

Lemma for_each_keys {A : Type} (code : A -> string) (amount : A -> Q)
    (l : list A) (t t' : gmap string Q) :
  for_each (fun t x => add_to_currency t (code x) (amount x)) l t = inr t' ->
  forall k, t' !! k = None <-> t !! k = None.
Proof.
  intros Hrun.
  destruct (for_each_outcome code amount l t)
    as [(k & _ & Hfail)|(t'' & Hok & Hsame & _)].
  - rewrite Hfail in Hrun. discriminate Hrun.
  - rewrite Hok in Hrun. injection Hrun as <-. exact Hsame.
Qed.

Lemma currency_totals_inr (d : Snapshot) (t : gmap string Q) :
  currency_totals d = inr t ->
  exists t1 t2,
    for_each (fun t c => add_to_currency t (cash_currency c) (cash_amount c))
      (cash d) init_currency_totals = inr t1
    /\ for_each (fun t b => add_to_currency t (bank_currency b) (bank_balance b))
         (banks d) t1 = inr t2
    /\ for_each (fun t r => add_to_currency t (rec_currency r) (rec_amount r))
         (receivables d) t2 = inr t.
Proof.
  unfold currency_totals. intros Hrun.
  destruct (for_each _ (cash d) _) as [e|t1] eqn:H1; simpl in Hrun; [discriminate|].
  destruct (for_each _ (banks d) _) as [e|t2] eqn:H2; simpl in Hrun; [discriminate|].
  exists t1, t2. split; [reflexivity|]. split; [exact H2|exact Hrun].
Qed.

(** X16.  The per-currency table is built exactly when every cash, bank and
    receivable record carries one of the ten listed codes.  It then has an
    entry for each of the ten codes and for no other, and each entry is the
    sum of the amounts held in that currency. *)
Theorem currency_totals_when_listed (d : Snapshot) :
  ((forall k, In k (asset_currencies d) -> In k currencies)
   <-> exists t, currency_totals d = inr t)
  /\ (forall t, currency_totals d = inr t ->
      forall k, (is_Some (t !! k) <-> In k currencies)
                /\ (forall v, t !! k = Some v -> v == Qsum (amounts_in k d))).
Proof.
  split.
  - split.
    + intros Hall. unfold asset_currencies in Hall. unfold currency_totals.
      destruct (for_each_completes cash_currency cash_amount (cash d)
                  init_currency_totals) as [t1 H1].
      { intros k Hk Hnone. apply init_currency_totals_None in Hnone.
        apply Hnone, Hall, in_or_app. left. exact Hk. }
      rewrite H1. simpl.
      destruct (for_each_completes bank_currency bank_balance (banks d) t1)
        as [t2 H2].
      { intros k Hk Hnone. apply (for_each_keys _ _ _ _ _ H1) in Hnone.
        apply init_currency_totals_None in Hnone.
        apply Hnone, Hall, in_or_app. right. apply in_or_app. left. exact Hk. }
      rewrite H2. simpl.
      apply for_each_completes.
      intros k Hk Hnone. apply (for_each_keys _ _ _ _ _ H2) in Hnone.
      apply (for_each_keys _ _ _ _ _ H1) in Hnone.
      apply init_currency_totals_None in Hnone.
      apply Hnone, Hall, in_or_app. right. apply in_or_app. right. exact Hk.
    + intros [t Hrun] k Hk.
      destruct (In_dec string_dec k currencies) as [Hin|Hout]; [exact Hin|].
      destruct (currency_totals_raises d k Hk Hout) as (k' & _ & Hfail).
      rewrite Hfail in Hrun. discriminate Hrun.
  - intros t Hrun k.
    destruct (currency_totals_inr d t Hrun) as (t1 & t2 & H1 & H2 & H3).
    split.
    + rewrite <- not_eq_None_Some.
      rewrite (for_each_keys _ _ _ _ _ H3), (for_each_keys _ _ _ _ _ H2),
        (for_each_keys _ _ _ _ _ H1), init_currency_totals_None.
      split; [|tauto].
      intros H. destruct (In_dec string_dec k currencies); [assumption|contradiction].
    + intros v Hv.
      destruct (for_each_values _ _ _ _ _ _ _ H3 Hv) as (v2 & Hv2 & E3).
      destruct (for_each_values _ _ _ _ _ _ _ H2 Hv2) as (v1 & Hv1 & E2).
      destruct (for_each_values _ _ _ _ _ _ _ H1 Hv1) as (v0 & Hv0 & E1).
      unfold init_currency_totals in Hv0.
      apply fold_insert_lookup_Some in Hv0. rewrite lookup_empty in Hv0.
      destruct Hv0 as [->|Hv0]; [|discriminate].
      unfold amounts_in. rewrite !Qsum_app, E3, E2, E1. ring.
Qed.

Example currency_totals_of_ledger :
  exists t, currency_totals ledger_data = inr t
            /\ t !! "PKR"%string = Some (0 + 40000)
            /\ t !! "USD"%string = Some 0
            /\ t !! "INR"%string = None.
Proof. eexists. repeat split. Qed.
